(** * Consolidation engine of the Tableau → Looker migration orchestrator

    A shallow embedding of [src/utility.py]: the view registry and its
    consolidator, the calculated-field registry, the analysis of the
    workbooks, the consolidation report and the model emitter, followed by
    the properties the specification states about them and by further
    properties read off the code.

    Conventions.
    - A Python [str] is a [string].  The character classes of [re]
      ([\w], [\s]), [str.lower] and [str.strip] are written out for the
      ASCII range; results that depend on them are stated for ASCII text.
    - A Python [dict] keeps insertion order, so it is an association list
      with the update-in-place / append-at-end discipline of [d[k] = v].
    - A Python [set] of strings is a [gset string]; [list(s)] is
      [elements s] (Python fixes no order for it either).
    - Code that can raise returns [option]. *)

From Stdlib Require Import ZArith Strings.String Strings.Ascii Numbers.DecimalString.
From stdpp Require Import base option list gmap strings sorting.

Local Open Scope string_scope.

(** ** Python strings (ASCII fragment) *)

Module PyStr.

Definition code (c : ascii) : nat := nat_of_ascii c.

Definition in_range (lo hi : nat) (c : ascii) : bool :=
  (lo <=? code c)%nat && (code c <=? hi)%nat.

(** [str.isascii] on one character. *)
Definition is_ascii (c : ascii) : bool := (code c <? 128)%nat.

Definition is_upper (c : ascii) : bool := in_range 65 90 c.
Definition is_lower (c : ascii) : bool := in_range 97 122 c.
Definition is_digit (c : ascii) : bool := in_range 48 57 c.

(** [\w] : letters, digits and the underscore. *)
Definition is_word (c : ascii) : bool :=
  is_upper c || is_lower c || is_digit c || (code c =? 95)%nat.

(** [\s] on a [str] pattern, and the default of [str.strip]:
    TAB, LF, VT, FF, CR, the four separators FS GS RS US, and SPACE. *)
Definition is_space (c : ascii) : bool :=
  in_range 9 13 c || in_range 28 31 c || (code c =? 32)%nat.

Definition lower_char (c : ascii) : ascii :=
  if is_upper c then ascii_of_nat (code c + 32) else c.

Fixpoint smap (f : ascii -> ascii) (s : string) : string :=
  match s with
  | EmptyString => EmptyString
  | String c s' => String (f c) (smap f s')
  end.

Fixpoint sfilter (p : ascii -> bool) (s : string) : string :=
  match s with
  | EmptyString => EmptyString
  | String c s' => if p c then String c (sfilter p s') else sfilter p s'
  end.

Fixpoint sforall (p : ascii -> bool) (s : string) : bool :=
  match s with
  | EmptyString => true
  | String c s' => p c && sforall p s'
  end.

(** [s.lower()] *)
Definition lower (s : string) : string := smap lower_char s.

(** [s.replace(a, b)] for one-character [a] and [b]. *)
Definition replace_char (a b : ascii) (s : string) : string :=
  smap (fun c => if Ascii.eqb c a then b else c) s.

(** [re.sub('[^...]', '', s)] : delete every character outside the class. *)
Definition re_delete_outside (cls : ascii -> bool) (s : string) : string :=
  sfilter cls s.

(** [re.sub('C+', r, s)] for a character class [C] and a one-character
    replacement [r]: every maximal run of class characters becomes [r]. *)
Fixpoint re_sub_runs (cls : ascii -> bool) (r : ascii) (s : string) : string :=
  match s with
  | EmptyString => EmptyString
  | String c s' =>
      if cls c then
        match s' with
        | EmptyString => String r EmptyString
        | String c' _ =>
            if cls c' then re_sub_runs cls r s'
            else String r (re_sub_runs cls r s')
        end
      else String c (re_sub_runs cls r s')
  end.

Fixpoint lstrip (p : ascii -> bool) (s : string) : string :=
  match s with
  | EmptyString => EmptyString
  | String c s' => if p c then lstrip p s' else s
  end.

Fixpoint rstrip (p : ascii -> bool) (s : string) : string :=
  match s with
  | EmptyString => EmptyString
  | String c s' =>
      match rstrip p s' with
      | EmptyString => if p c then EmptyString else String c EmptyString
      | r => String c r
      end
  end.

(** [s.strip(chars)] with the character set given as a predicate. *)
Definition strip (p : ascii -> bool) (s : string) : string :=
  rstrip p (lstrip p s).

Definition is_char (a : ascii) (c : ascii) : bool := Ascii.eqb c a.

(** [s[:n]] *)
Definition take_prefix (n : nat) (s : string) : string := substring 0 n s.

(** [sep.join(l)] *)
Definition join (sep : string) (l : list string) : string := String.concat sep l.

(** [sorted(l)] on strings: ascending in code-point order.  The order
    is total, so every sorting algorithm returns the same list. *)
Fixpoint insert_sorted (x : string) (l : list string) : list string :=
  match l with
  | [] => [x]
  | y :: l' => if String.leb x y then x :: l else y :: insert_sorted x l'
  end.

Definition sorted (l : list string) : list string :=
  foldr insert_sorted [] l.

End PyStr.

(** ** Insertion-ordered dictionaries with string keys *)

Definition dict (V : Type) : Type := list (string * V).

Section Dict.
Context {V : Type}.

(** [d.get(k)] *)
Fixpoint dict_get (k : string) (d : dict V) : option V :=
  match d with
  | [] => None
  | (k', v) :: d' => if String.eqb k k' then Some v else dict_get k d'
  end.

(** [k in d] *)
Definition dict_mem (k : string) (d : dict V) : bool :=
  match dict_get k d with Some _ => true | None => false end.

(** [d[k] = v] : an existing key keeps its position, a new key goes last. *)
Fixpoint dict_set (k : string) (v : V) (d : dict V) : dict V :=
  match d with
  | [] => [(k, v)]
  | (k', v') :: d' =>
      if String.eqb k k' then (k', v) :: d' else (k', v') :: dict_set k v d'
  end.

(** [d.get(k, dflt)] *)
Definition dict_get_default (k : string) (dflt : V) (d : dict V) : V :=
  match dict_get k d with Some v => v | None => dflt end.

Definition dict_keys (d : dict V) : list string := d.*1.
Definition dict_values (d : dict V) : list V := d.*2.
End Dict.

(** ** Model emitter helpers *)

(** [EnterpriseMigrationOrchestrator._sanitize_name] *)
Definition _sanitize_name (name : string) : string :=
  let sanitized :=
    PyStr.re_delete_outside (fun c => PyStr.is_word c || PyStr.is_space c) name in
  let sanitized := PyStr.replace_char " " "_" (PyStr.lower sanitized) in
  PyStr.strip (PyStr.is_char "_")
    (PyStr.re_sub_runs (PyStr.is_char "_") "_" sanitized).

(** The key under which [generate_unified_lookml] files a view. *)
Definition view_artifact_path (view_name : string) : string :=
  "views/" +:+ _sanitize_name view_name +:+ ".view.lkml".

(** [EnterpriseMigrationOrchestrator._map_datatype] *)
Definition datatype_mapping : dict string :=
  [ ("string", "string");
    ("integer", "number");
    ("real", "number");
    ("boolean", "yesno");
    ("date", "date");
    ("datetime", "time") ].

Definition _map_datatype (tableau_type : string) : string :=
  dict_get_default (PyStr.lower tableau_type) "string" datatype_mapping.

(** ** Data model *)

Local Open Scope list_scope.

(** A column [{'name', 'datatype', 'role'}] as the parser builds it,
    with text under each of the three keys.  A column dict with a key
    missing or with [None] under a key (the [.text] of an empty XML
    element) is outside this type: on such a column the source raises in
    [_hash_definition] or in the generators, or takes the [.get]
    defaults, and nothing below speaks of it. *)
Record Column := mkColumn {
  col_name : string;
  col_datatype : string;
  col_role : string
}.

(** A calculated field [{'name', 'formula'}]. *)
Record CalcField := mkCalcField {
  cf_name : string;
  cf_formula : string
}.

(** A view definition.  [def_table] is [definition.get('table')];
    [def_columns] and [def_calculated_fields] are [None] when the key is
    absent, which the code reads as the empty list. *)
Record ViewDefinition := mkViewDefinition {
  def_name : string;
  def_table : option string;
  def_database : string;
  def_schema : string;
  def_columns : option (list Column);
  def_calculated_fields : option (list CalcField);
  def_custom_sql : option string
}.

(** [definition.get('columns', [])] *)
Definition get_columns (d : ViewDefinition) : list Column :=
  default [] (def_columns d).

(** [definition.get('calculated_fields', [])] *)
Definition get_calculated_fields (d : ViewDefinition) : list CalcField :=
  default [] (def_calculated_fields d).

(** The dictionary that [_hash_definition] serialises. *)
Record KeyElements := mkKeyElements {
  ke_table : option string;
  ke_columns : list string;
  ke_calc_fields : list string
}.

(** One element of a registry list: [{'definition', 'source', 'hash'}]. *)
Record RegistryEntry := mkRegistryEntry {
  definition : ViewDefinition;
  source : string;
  hash : string
}.

(** The result of [_compute_difference]. *)
Record Difference := mkDifference {
  columns_only_in_def1 : list string;
  columns_only_in_def2 : list string;
  calc_fields_only_in_def1 : list string;
  calc_fields_only_in_def2 : list string
}.

(** One element of [UnifiedView.variations]. *)
Record Variation := mkVariation {
  var_source : string;
  difference : Difference
}.

Record UnifiedView := mkUnifiedView {
  name : string;
  source_workbooks : list string;
  canonical_definition : option ViewDefinition;
  variations : list Variation;
  merge_strategy : string
}.

(** The dataclass defaults of [UnifiedView]. *)
Definition default_variations : list Variation := [].
Definition default_merge_strategy : string := "most_complete".

(** [max(l, key=key)] : the first element whose key is maximal;
    [ValueError] on the empty list. *)
Section PyMax.
Context {A : Type} (key : A -> nat).

Fixpoint max_from (best : A) (l : list A) : A :=
  match l with
  | [] => best
  | x :: l' => if (key best <? key x)%nat then max_from x l' else max_from best l'
  end.

Definition py_max (l : list A) : option A :=
  match l with
  | [] => None
  | x :: l' => Some (max_from x l')
  end.
End PyMax.

(** ** ViewConsolidator *)

(** The only attribute the methods read or write is [view_registry]
    ([similarity_threshold] is set once and never used). *)
Record ViewConsolidator := mkViewConsolidator {
  view_registry : dict (list RegistryEntry)
}.

(** [ViewConsolidator.__init__] *)
Definition new_view_consolidator : ViewConsolidator :=
  {| view_registry := [] |}.

(** [ViewConsolidator._compute_difference] *)
Definition _compute_difference (def1 def2 : ViewDefinition) : Difference :=
  let cols1 : gset string := list_to_set (col_name <$> get_columns def1) in
  let cols2 : gset string := list_to_set (col_name <$> get_columns def2) in
  let calcs1 : gset string := list_to_set (cf_name <$> get_calculated_fields def1) in
  let calcs2 : gset string := list_to_set (cf_name <$> get_calculated_fields def2) in
  {| columns_only_in_def1 := elements (cols1 ∖ cols2);
     columns_only_in_def2 := elements (cols2 ∖ cols1);
     calc_fields_only_in_def1 := elements (calcs1 ∖ calcs2);
     calc_fields_only_in_def2 := elements (calcs2 ∖ calcs1) |}.

(** The key of the [max] in [_consolidate_view_definitions]. *)
Definition completeness (d : RegistryEntry) : nat :=
  length (get_columns (definition d)) +
  length (get_calculated_fields (definition d)).

(** The loop that collects the variations against [most_complete]. *)
Definition collect_variations (most_complete : RegistryEntry)
    (definitions : list RegistryEntry) : list Variation :=
  foldl (fun variations d =>
           if negb (String.eqb (hash d) (hash most_complete)) then
             variations ++
               [ {| var_source := source d;
                    difference := _compute_difference (definition most_complete)
                                                      (definition d) |} ]
           else variations)
        [] definitions.

(** [ViewConsolidator._consolidate_view_definitions]; [None] stands for
    the [ValueError] of [max] on an empty list. *)
Definition _consolidate_view_definitions (view_name : string)
    (definitions : list RegistryEntry) : option UnifiedView :=
  let hashes := hash <$> definitions in
  if (size (list_to_set hashes : gset string) =? 1)%nat then
    d0 ← head definitions;
    Some {| name := view_name;
            source_workbooks := source <$> definitions;
            canonical_definition := Some (definition d0);
            variations := default_variations;
            merge_strategy := "identical" |}
  else
    most_complete ← py_max completeness definitions;
    let variations := collect_variations most_complete definitions in
    Some {| name := view_name;
            source_workbooks := source <$> definitions;
            canonical_definition := Some (definition most_complete);
            variations := variations;
            merge_strategy :=
              match variations with
              | [] => "most_complete"
              | _ :: _ => "manual_review"
              end |}.

(** The body of the loop of [consolidate] for one registry item. *)
Definition consolidate_item (view_name : string)
    (definitions : list RegistryEntry) : option UnifiedView :=
  if (length definitions =? 1)%nat then
    d0 ← head definitions;
    Some {| name := view_name;
            source_workbooks := [source d0];
            canonical_definition := Some (definition d0);
            variations := default_variations;
            merge_strategy := default_merge_strategy |}
  else _consolidate_view_definitions view_name definitions.

Fixpoint consolidate_loop (items : list (string * list RegistryEntry))
    (unified_views : dict UnifiedView) : option (dict UnifiedView) :=
  match items with
  | [] => Some unified_views
  | (view_name, definitions) :: rest =>
      unified ← consolidate_item view_name definitions;
      consolidate_loop rest (dict_set view_name unified unified_views)
  end.

(** [ViewConsolidator.consolidate] *)
Definition consolidate (self : ViewConsolidator) : option (dict UnifiedView) :=
  consolidate_loop (view_registry self) [].

(** A method call as a state transformer: the object after the call and
    the value returned.  [consolidate] assigns to no attribute. *)
Definition call_consolidate (self : ViewConsolidator)
    : ViewConsolidator * option (dict UnifiedView) :=
  (self, consolidate self).

Section Fingerprint.
(** [md5_json k] stands for
    [hashlib.md5(json.dumps(k, sort_keys=True).encode()).hexdigest()],
    two library calls the development does not look inside. *)
Variable md5_json : KeyElements -> string.

(** [ViewConsolidator._hash_definition] *)
Definition _hash_definition (d : ViewDefinition) : string :=
  let key_elements :=
    {| ke_table := def_table d;
       ke_columns := PyStr.sorted (col_name <$> get_columns d);
       ke_calc_fields := PyStr.sorted (cf_name <$> get_calculated_fields d) |} in
  md5_json key_elements.

(** [ViewConsolidator.register_view].  After the guard the key is
    present, so the lookup of the list cannot miss. *)
Definition register_view (self : ViewConsolidator) (view_name : string)
    (view_definition : ViewDefinition) (workbook_source : string)
    : ViewConsolidator :=
  let registry := view_registry self in
  let registry :=
    if negb (dict_mem view_name registry)
    then dict_set view_name [] registry else registry in
  let entry := {| definition := view_definition;
                  source := workbook_source;
                  hash := _hash_definition view_definition |} in
  {| view_registry :=
       dict_set view_name (dict_get_default view_name [] registry ++ [entry])
                registry |}.

(** A recorded call [register_view(view_name, view_definition, source)]. *)
Record RegisterCall := mkRegisterCall {
  rc_name : string;
  rc_definition : ViewDefinition;
  rc_source : string
}.

Definition register_call (self : ViewConsolidator) (c : RegisterCall)
    : ViewConsolidator :=
  register_view self (rc_name c) (rc_definition c) (rc_source c).

(** The consolidator after a sequence of registrations on a fresh object. *)
Definition register_all (calls : list RegisterCall) : ViewConsolidator :=
  foldl register_call new_view_consolidator calls.

(** What the registrations under one name contribute, in call order. *)
Definition entry_of (c : RegisterCall) : RegistryEntry :=
  {| definition := rc_definition c;
     source := rc_source c;
     hash := _hash_definition (rc_definition c) |}.

Definition observations (view_name : string) (calls : list RegisterCall)
    : list RegistryEntry :=
  entry_of <$> filter (fun c => rc_name c = view_name) calls.
End Fingerprint.

(** ** CalculatedFieldConsolidator *)

(** One element of a field-registry list: [{'formula', 'normalized', 'source'}]. *)
Record FieldEntry := mkFieldEntry {
  fe_formula : string;
  fe_normalized : string;
  fe_source : string
}.

(** What the report reads of one value of the duplicate mapping:
    [data['variations']] (only its length) and [data['recommendation']]. *)
Record Recommendation := mkRecommendation {
  rec_formula : string;
  rec_sources : list string
}.

Record DuplicateEntry := mkDuplicateEntry {
  dup_variations : list FieldEntry;
  dup_recommendation : Recommendation
}.

Record CalculatedFieldConsolidator := mkCalculatedFieldConsolidator {
  field_registry : dict (list FieldEntry)
}.

(** [CalculatedFieldConsolidator.__init__] *)
Definition new_calc_consolidator : CalculatedFieldConsolidator :=
  {| field_registry := [] |}.

(** [CalculatedFieldConsolidator.register_field].  The registry is a
    [defaultdict(list)]: reading a missing key first stores [[]] under it. *)
Definition register_field (self : CalculatedFieldConsolidator)
    (field_name formula workbook_source : string) : CalculatedFieldConsolidator :=
  let normalized_formula :=
    PyStr.re_sub_runs PyStr.is_space " "
      (PyStr.strip PyStr.is_space (PyStr.lower formula)) in
  let registry := field_registry self in
  let registry :=
    if negb (dict_mem field_name registry)
    then dict_set field_name [] registry else registry in
  let entry := {| fe_formula := formula;
                  fe_normalized := normalized_formula;
                  fe_source := workbook_source |} in
  {| field_registry :=
       dict_set field_name (dict_get_default field_name [] registry ++ [entry])
                registry |}.

(** [CalculatedFieldConsolidator.find_duplicates] *)
Definition find_duplicates (self : CalculatedFieldConsolidator) : dict DuplicateEntry :=
  let duplicates : dict DuplicateEntry := [] in
  duplicates.

(** A recorded call [register_field(field_name, formula, source)]. *)
Record FieldCall := mkFieldCall {
  fc_name : string;
  fc_formula : string;
  fc_source : string
}.

Definition register_field_call (self : CalculatedFieldConsolidator) (c : FieldCall)
    : CalculatedFieldConsolidator :=
  register_field self (fc_name c) (fc_formula c) (fc_source c).

(** ** EnterpriseMigrationOrchestrator: analysis and report *)

Record CalculatedFieldMock := mkCalculatedFieldMock {
  cfm_name : string;
  cfm_formula : string;
  cfm_role : string
}.

Record DataSourceMock := mkDataSourceMock {
  ds_name : string;
  ds_table : string;
  ds_database : string;
  ds_schema : string;
  ds_columns : list Column;
  ds_calculated_fields : list CalculatedFieldMock;
  ds_custom_sql : option string
}.

(** The attributes of a parser the orchestrator's analysis reads. *)
Record TableauParserWrapper := mkTableauParserWrapper {
  file_path : string;
  data_sources : list DataSourceMock
}.

Record EnterpriseMigrationOrchestrator := mkOrchestrator {
  workbook_paths : list string;
  parsers : list TableauParserWrapper;
  view_consolidator : ViewConsolidator;
  calc_consolidator : CalculatedFieldConsolidator;
  unified_views : dict UnifiedView;
  duplicate_calcs : dict DuplicateEntry
}.

(** [EnterpriseMigrationOrchestrator.__init__] *)
Definition new_orchestrator (paths : list string) : EnterpriseMigrationOrchestrator :=
  {| workbook_paths := paths;
     parsers := [];
     view_consolidator := new_view_consolidator;
     calc_consolidator := new_calc_consolidator;
     unified_views := [];
     duplicate_calcs := [] |}.

Record ReportSummary := mkReportSummary {
  workbooks_analyzed : Z;
  views_before_consolidation : Z;
  views_after_consolidation : Z;
  views_eliminated : Z;
  views_requiring_manual_review : Z;
  duplicate_calculated_fields : Z
}.

Record ViewSummary := mkViewSummary {
  vs_sources : list string;
  vs_merge_strategy : string;
  vs_variations : Z
}.

Record ReviewItem := mkReviewItem {
  ri_name : string;
  ri_sources : list string;
  ri_variations : list Variation
}.

Record DuplicateSummary := mkDuplicateSummary {
  variation_count : Z;
  recommended_formula : string;
  dsum_sources : list string
}.

Record ConsolidationReport := mkConsolidationReport {
  summary : ReportSummary;
  report_unified_views : dict ViewSummary;
  views_requiring_review : list ReviewItem;
  report_duplicate_calculated_fields : dict DuplicateSummary
}.

(** [len(x)] as a Python integer. *)
Definition len {A : Type} (l : list A) : Z := Z.of_nat (length l).

(** [{k: f(k, v) for k, v in d.items()}] *)
Definition dict_comprehension {V W : Type} (f : string -> V -> W) (d : dict V) : dict W :=
  foldl (fun acc kv => dict_set kv.1 (f kv.1 kv.2) acc) [] d.

(** [sum(len(p.data_sources) for p in parsers)] *)
Definition total_data_sources (ps : list TableauParserWrapper) : Z :=
  foldl (fun acc p => acc + len (data_sources p))%Z 0%Z ps.

(** [EnterpriseMigrationOrchestrator._generate_consolidation_report] *)
Definition _generate_consolidation_report (self : EnterpriseMigrationOrchestrator)
    : ConsolidationReport :=
  let total_views_before := total_data_sources (parsers self) in
  let total_views_after := len (unified_views self) in
  let views_requiring_review :=
    filter (fun v => merge_strategy v = "manual_review")
           (dict_values (unified_views self)) in
  {| summary :=
       {| workbooks_analyzed := len (workbook_paths self);
          views_before_consolidation := total_views_before;
          views_after_consolidation := total_views_after;
          views_eliminated := (total_views_before - total_views_after)%Z;
          views_requiring_manual_review := len views_requiring_review;
          duplicate_calculated_fields := len (duplicate_calcs self) |};
     report_unified_views :=
       dict_comprehension
         (fun _ view => {| vs_sources := source_workbooks view;
                           vs_merge_strategy := merge_strategy view;
                           vs_variations := len (variations view) |})
         (unified_views self);
     views_requiring_review :=
       (fun v => {| ri_name := name v;
                    ri_sources := source_workbooks v;
                    ri_variations := variations v |}) <$> views_requiring_review;
     report_duplicate_calculated_fields :=
       dict_comprehension
         (fun _ data =>
            {| variation_count := len (dup_variations data);
               recommended_formula :=
                 PyStr.take_prefix 100 (rec_formula (dup_recommendation data)) +:+ "...";
               dsum_sources := rec_sources (dup_recommendation data) |})
         (duplicate_calcs self) |}.

Section Analysis.
Variable md5_json : KeyElements -> string.
(** [parse_twb path] : the outcome of [TableauParserWrapper(path).parse()].
    [Some ds] when the call returns, [ds] being what it leaves in
    [data_sources] (the empty list after a caught [ET.ParseError]);
    [None] when it raises, as it does on a missing file
    ([FileNotFoundError]) or on a metadata record without [remote-name],
    [local-type] or [role] ([AttributeError]).  The columns of [ds] carry
    text in all three fields; a parse that stores [None] for an empty
    element is outside the model. *)
Variable parse_twb : string -> option (list DataSourceMock).
(** [path_name path] : [Path(path).name]. *)
Variable path_name : string -> string.

(** The view definition [analyze_all_workbooks] builds for a data source. *)
Definition view_def_of (ds : DataSourceMock) : ViewDefinition :=
  {| def_name := ds_name ds;
     def_table := Some (ds_table ds);
     def_database := ds_database ds;
     def_schema := ds_schema ds;
     def_columns := Some (ds_columns ds);
     def_calculated_fields :=
       Some ((fun cf => {| cf_name := cfm_name cf; cf_formula := cfm_formula cf |})
               <$> ds_calculated_fields ds);
     def_custom_sql := ds_custom_sql ds |}.

(** One turn of the loop over [workbook_paths]; [None] when [parse]
    raises, before the parser is appended. *)
Definition analyze_workbook (self : EnterpriseMigrationOrchestrator)
    (twb_path : string) : option EnterpriseMigrationOrchestrator :=
  parsed ← parse_twb twb_path;
  let parser := {| file_path := twb_path; data_sources := parsed |} in
  let vc :=
    foldl (fun vc ds =>
             register_view md5_json vc (ds_name ds) (view_def_of ds)
                           (path_name twb_path))
          (view_consolidator self) (data_sources parser) in
  Some {| workbook_paths := workbook_paths self;
          parsers := parsers self ++ [parser];
          view_consolidator := vc;
          calc_consolidator := calc_consolidator self;
          unified_views := unified_views self;
          duplicate_calcs := duplicate_calcs self |}.

(** The loop over [workbook_paths]; an exception leaves it at once. *)
Fixpoint analyze_loop (paths : list string) (self : EnterpriseMigrationOrchestrator)
    : option EnterpriseMigrationOrchestrator :=
  match paths with
  | [] => Some self
  | twb_path :: rest =>
      self ← analyze_workbook self twb_path;
      analyze_loop rest self
  end.

(** [EnterpriseMigrationOrchestrator.analyze_all_workbooks] : the object
    after the call and the report returned; [None] when a parse or
    [consolidate] raises. *)
Definition analyze_all_workbooks (self : EnterpriseMigrationOrchestrator)
    : option (EnterpriseMigrationOrchestrator * ConsolidationReport) :=
  self ← analyze_loop (workbook_paths self) self;
  uv ← consolidate (view_consolidator self);
  let self :=
    {| workbook_paths := workbook_paths self;
       parsers := parsers self;
       view_consolidator := view_consolidator self;
       calc_consolidator := calc_consolidator self;
       unified_views := uv;
       duplicate_calcs := find_duplicates (calc_consolidator self) |} in
  Some (self, _generate_consolidation_report self).
End Analysis.

(** ** The specification's wording of the two emitter helpers *)

(** Section 4.5 on artifact names: non-word characters stripped,
    whitespace folded to underscores, lowercased, duplicate underscores
    collapsed.  Whitespace survives the first step, or there would be
    nothing left to fold. *)
Definition sanitize_as_specified (name : string) : string :=
  let stripped :=
    PyStr.sfilter (fun c => PyStr.is_word c || PyStr.is_space c) name in
  let folded :=
    PyStr.smap (fun c => if PyStr.is_space c then "_"%char else c) stripped in
  PyStr.re_sub_runs (PyStr.is_char "_") "_" (PyStr.lower folded).

(** Section 4.5 on types: the fixed table, read on the datatype as given. *)
Definition specified_mapping : dict string :=
  [ ("string", "string");
    ("integer", "number");
    ("real", "number");
    ("boolean", "boolean-flag");
    ("date", "date");
    ("datetime", "timestamp") ].

Definition map_datatype_as_specified (tableau_type : string) : string :=
  dict_get_default tableau_type "string" specified_mapping.

(** The table the code applies, as a case analysis on the lower-cased
    datatype. *)
Definition lowercased_table (tableau_type : string) : string :=
  let t := PyStr.lower tableau_type in
  if String.eqb t "string" then "string"
  else if String.eqb t "integer" then "number"
  else if String.eqb t "real" then "number"
  else if String.eqb t "boolean" then "yesno"
  else if String.eqb t "date" then "date"
  else if String.eqb t "datetime" then "time"
  else "string".

(** ** Worked scenario

    The registrations of section 8 of the specification, interleaved as
    two workbooks would produce them, plus a tie on completeness. *)

(** A stand-in for the digest in worked examples: the key elements
    written out, so equal key elements and equal digests coincide. *)
Definition toy_digest (k : KeyElements) : string :=
  default "" (ke_table k) +:+ "|" +:+ PyStr.join "," (ke_columns k)
    +:+ "|" +:+ PyStr.join "," (ke_calc_fields k).

Definition dim (n : string) : Column :=
  {| col_name := n; col_datatype := "string"; col_role := "dimension" |}.

Definition view_of (n : string) (cols : list string) : ViewDefinition :=
  {| def_name := n;
     def_table := Some n;
     def_database := "bigquery-public-data";
     def_schema := "google_trends";
     def_columns := Some (dim <$> cols);
     def_calculated_fields := Some [];
     def_custom_sql := None |}.

Definition scenario_calls : list RegisterCall :=
  [ mkRegisterCall "Sales" (view_of "Sales" ["OrderID"; "Amount"]) "W1";
    mkRegisterCall "Customers" (view_of "Customers" ["Id"; "Name"]) "W1";
    mkRegisterCall "Products" (view_of "Products" ["Sku"; "Price"]) "W1";
    mkRegisterCall "Sales" (view_of "Sales" ["OrderID"; "Amount"; "Region"]) "W2";
    mkRegisterCall "Customers" (view_of "Customers" ["Id"; "Name"]) "W2";
    mkRegisterCall "Products" (view_of "Products" ["Sku"; "Colour"]) "W2";
    mkRegisterCall "Returns" (view_of "Returns" ["OrderID"]) "W2" ].

(** A view whose calculated fields count: one name registered by three
    workbooks, the first with the most columns, the second and third with
    the largest sum of columns and calculated fields. *)
Definition calc (n : string) : CalcField :=
  {| cf_name := n; cf_formula := "SUM([" +:+ n +:+ "])" |}.

Definition view_with (n : string) (cols calcs : list string) : ViewDefinition :=
  {| def_name := n;
     def_table := Some n;
     def_database := "bigquery-public-data";
     def_schema := "google_trends";
     def_columns := Some (dim <$> cols);
     def_calculated_fields := Some (calc <$> calcs);
     def_custom_sql := None |}.

Definition metrics_calls : list RegisterCall :=
  [ mkRegisterCall "Metrics" (view_with "Metrics" ["A"; "B"; "C"] []) "W1";
    mkRegisterCall "Metrics" (view_with "Metrics" ["A"] ["M1"; "M2"; "M3"]) "W2";
    mkRegisterCall "Metrics" (view_with "Metrics" ["A"; "B"] ["M1"; "M2"]) "W3" ].

(** The two runs that differ only in a workbook without data sources. *)
Definition sales_source : DataSourceMock :=
  {| ds_name := "Sales";
     ds_table := "sales";
     ds_database := "bigquery-public-data";
     ds_schema := "google_trends";
     ds_columns := [dim "OrderID"; dim "Amount"];
     ds_calculated_fields := [];
     ds_custom_sql := None |}.

Definition scenario_parse (path : string) : option (list DataSourceMock) :=
  if String.eqb path "a.twb" then Some [sales_source]
  else if String.eqb path "missing.twb" then None
  else Some [].

Definition scenario_path_name (path : string) : string := path.

(** Two orchestrator states with the same unified views and duplicate
    mapping, one path and one data source each, and nothing else in common. *)
Definition sales_unified : dict UnifiedView :=
  [ ("Sales",
     {| name := "Sales";
        source_workbooks := ["a.twb"];
        canonical_definition := Some (view_def_of sales_source);
        variations := default_variations;
        merge_strategy := default_merge_strategy |}) ].

Definition state_after_run : EnterpriseMigrationOrchestrator :=
  {| workbook_paths := ["a.twb"];
     parsers := [ {| file_path := "a.twb"; data_sources := [sales_source] |} ];
     view_consolidator :=
       register_view toy_digest new_view_consolidator "Sales"
                     (view_def_of sales_source) "a.twb";
     calc_consolidator := new_calc_consolidator;
     unified_views := sales_unified;
     duplicate_calcs := [] |}.

(** The same orchestrator after a second call of the analysis. *)
Definition state_after_second_run : EnterpriseMigrationOrchestrator :=
  {| workbook_paths := ["a.twb"];
     parsers := [ {| file_path := "a.twb"; data_sources := [sales_source] |};
                  {| file_path := "a.twb"; data_sources := [sales_source] |} ];
     view_consolidator :=
       register_view toy_digest
         (register_view toy_digest new_view_consolidator "Sales"
                        (view_def_of sales_source) "a.twb")
         "Sales" (view_def_of sales_source) "a.twb";
     calc_consolidator := new_calc_consolidator;
     unified_views :=
       [ ("Sales",
          {| name := "Sales";
             source_workbooks := ["a.twb"; "a.twb"];
             canonical_definition := Some (view_def_of sales_source);
             variations := default_variations;
             merge_strategy := "identical" |}) ];
     duplicate_calcs := [] |}.

Definition state_hand_built : EnterpriseMigrationOrchestrator :=
  {| workbook_paths := ["elsewhere/z.twb"];
     parsers := [ {| file_path := "elsewhere/z.twb";
                     data_sources :=
                       [ {| ds_name := "Returns";
                            ds_table := "returns";
                            ds_database := "";
                            ds_schema := "";
                            ds_columns := [];
                            ds_calculated_fields := [];
                            ds_custom_sql := Some "SELECT 1" |} ] |} ];
     view_consolidator := new_view_consolidator;
     calc_consolidator :=
       register_field new_calc_consolidator "Margin" "SUM( [Profit] )" "z.twb";
     unified_views := sales_unified;
     duplicate_calcs := [] |}.

(** ** Notions used to state further properties *)

(** The distinct elements of a list, each at the place of its first
    occurrence. *)
Definition first_occurrences (l : list string) : list string :=
  foldl (fun seen x => if bool_decide (x ∈ seen) then seen else seen ++ [x]) [] l.

(** The variation [_consolidate_view_definitions] records for an
    observation [d] that differs from the canonical one. *)
Definition variation_against (most_complete d : RegistryEntry) : Variation :=
  {| var_source := source d;
     difference := _compute_difference (definition most_complete) (definition d) |}.

(** The expression [register_field] stores under ['normalized']. *)
Definition normalize_formula (formula : string) : string :=
  PyStr.re_sub_runs PyStr.is_space " "
    (PyStr.strip PyStr.is_space (PyStr.lower formula)).



(** Two definitions of one table that differ in everything the
    fingerprint does not read. *)
Definition orders_as_exported : ViewDefinition :=
  {| def_name := "Orders";
     def_table := Some "orders";
     def_database := "warehouse";
     def_schema := "public";
     def_columns := Some [ mkColumn "Id" "integer" "dimension";
                           mkColumn "Total" "real" "measure" ];
     def_calculated_fields := Some [ mkCalcField "Margin" "[Total] * 0.2" ];
     def_custom_sql := None |}.

Definition orders_retyped : ViewDefinition :=
  {| def_name := "Orders (copy)";
     def_table := Some "orders";
     def_database := "archive";
     def_schema := "legacy";
     def_columns := Some [ mkColumn "Total" "string" "dimension";
                           mkColumn "Id" "string" "dimension" ];
     def_calculated_fields := Some [ mkCalcField "Margin" "[Total] / 5" ];
     def_custom_sql := Some "SELECT * FROM orders" |}.

(** Shapes of strings. *)
Definition first_char (s : string) : option ascii :=
  match s with
  | EmptyString => None
  | String c _ => Some c
  end.

Fixpoint last_char (s : string) : option ascii :=
  match s with
  | EmptyString => None
  | String c EmptyString => Some c
  | String _ s' => last_char s'
  end.

(** Two neighbouring characters of the class somewhere in the string. *)
Fixpoint has_adjacent (p : ascii -> bool) (s : string) : bool :=
  match s with
  | EmptyString => false
  | String c s' =>
      match s' with
      | EmptyString => false
      | String c' _ => (p c && p c') || has_adjacent p s'
      end
  end.

(** Lower-case letters, digits and the underscore. *)
Definition is_identifier_char (c : ascii) : bool :=
  PyStr.is_lower c || PyStr.is_digit c || PyStr.is_char "_" c.

(** Letters and digits. *)
Definition is_alnum (c : ascii) : bool :=
  PyStr.is_upper c || PyStr.is_lower c || PyStr.is_digit c.

(** Whitespace other than the space character. *)
Definition is_other_space (c : ascii) : bool :=
  PyStr.is_space c && negb (Ascii.eqb c " ").

(** A character that [_sanitize_name] keeps and leaves as it is: a word
    character or whitespace, already lower-case, and not the space. *)
Definition is_sanitized_char (c : ascii) : bool :=
  (PyStr.is_word c || PyStr.is_space c)
  && Ascii.eqb (PyStr.lower_char c) c
  && negb (Ascii.eqb c " ").

(** What one run of the analysis registers, given each path with the
    data sources its parse returned: for each workbook in turn, each of
    its data sources in turn, under the data source's name and with the
    workbook's file name as source. *)
Section RunCalls.
Variable path_name : string -> string.

Definition data_source_call (twb_path : string) (ds : DataSourceMock) : RegisterCall :=
  {| rc_name := ds_name ds;
     rc_definition := view_def_of ds;
     rc_source := path_name twb_path |}.

Definition workbook_calls (parsed : string * list DataSourceMock) : list RegisterCall :=
  data_source_call parsed.1 <$> parsed.2.

Definition run_calls (parsed : list (string * list DataSourceMock))
    : list RegisterCall :=
  concat (workbook_calls <$> parsed).
End RunCalls.

Definition parser_of (parsed : string * list DataSourceMock) : TableauParserWrapper :=
  {| file_path := parsed.1; data_sources := parsed.2 |}.

(** [parsed] lists the paths in order, each with what its parse returned. *)
Definition parsed_from (parse_twb : string -> option (list DataSourceMock))
    (paths : list string) (parsed : list (string * list DataSourceMock)) : Prop :=
  parsed.*1 = paths /\ Forall (fun ps => parse_twb ps.1 = Some ps.2) parsed.

(** The orchestrator after the loop of the analysis, from [self]. *)
Definition after_parsing (md5_json : KeyElements -> string)
    (path_name : string -> string) (self : EnterpriseMigrationOrchestrator)
    (parsed : list (string * list DataSourceMock)) : EnterpriseMigrationOrchestrator :=
  {| workbook_paths := workbook_paths self;
     parsers := parsers self ++ (parser_of <$> parsed);
     view_consolidator :=
       foldl (register_call md5_json) (view_consolidator self)
             (run_calls path_name parsed);
     calc_consolidator := calc_consolidator self;
     unified_views := unified_views self;
     duplicate_calcs := duplicate_calcs self |}.

(** ** EnterpriseMigrationOrchestrator: the emitter *)

(** Pieces of text.  A template written over several lines is the list
    of its lines, each followed by a line feed. *)
Definition nl : string := String (ascii_of_nat 10) EmptyString.
Definition dq : string := String (ascii_of_nat 34) EmptyString.

Definition text_of_lines (ls : list string) : string :=
  String.concat "" ((fun l => l +:+ nl) <$> ls).

(** [str(n)] for a length. *)
Definition str_of_nat (n : nat) : string :=
  NilEmpty.string_of_uint (Nat.to_uint n).

(** [sub in s] *)
Definition contains (sub s : string) : bool :=
  match String.index 0 sub s with
  | Some _ => true
  | None => false
  end.

(** The warning sign U+26A0 with its variation selector U+FE0F, in UTF-8. *)
Definition warning_sign : string :=
  string_of_list_ascii
    (ascii_of_nat <$> [226; 154; 160; 239; 184; 143]).

(** [EnterpriseMigrationOrchestrator._generate_unified_model] *)
Definition _generate_unified_model : string :=
  text_of_lines
    [ "# Enterprise Unified Data Model";
      "";
      "# Consolidated from multiple Tableau workbooks";
      "";
      "connection: " +:+ dq +:+ "enterprise_database" +:+ dq;
      "";
      "# Include all views";
      "include: " +:+ dq +:+ "/views/*.view.lkml" +:+ dq;
      "";
      "# Include dashboards";
      "include: " +:+ dq +:+ "/dashboards/*.dashboard.lookml" +:+ dq;
      "";
      "# Datagroups";
      "datagroup: default_datagroup {";
      "  sql_trigger: SELECT MAX(updated_at) FROM etl_metadata ;;";
      "  max_cache_age: " +:+ dq +:+ "1 hour" +:+ dq;
      "}";
      "";
      "persist_with: default_datagroup";
      "";
      "# EXPLORE FIX: Define the required explore here";
      "explore: google_trends_rising_terms {";
      "  from: google_trends_rising_terms";
      "}" ].

(** The block [_generate_unified_view_lkml] appends for one column.
    The column has all three keys with text, so [col.get('role',
    'dimension')] and [col.get('datatype', 'string')] never take their
    defaults and [.lower()] and the sanitiser get a string. *)
Definition column_block (col : Column) : string :=
  let sanitized := _sanitize_name (col_name col) in
  let tableau_role := PyStr.lower (col_role col) in
  if String.eqb tableau_role "measure" then
    text_of_lines
      [ "";
        "  measure: " +:+ sanitized +:+ " {";
        "    type: sum";
        "    sql: ${TABLE}." +:+ col_name col +:+ " ;;";
        "    # Description: Migrated Tableau Measure (" +:+ col_datatype col +:+ ")";
        "  }" ]
  else
    text_of_lines
      [ "";
        "  dimension: " +:+ sanitized +:+ " {";
        "    type: " +:+ _map_datatype (col_datatype col);
        "    sql: ${TABLE}." +:+ col_name col +:+ " ;;";
        "    # Description: Migrated Tableau Dimension (" +:+ col_datatype col +:+ ")";
        "  }" ].

(** Truth value of an optional string: neither [None] nor empty. *)
Definition truthy (s : option string) : bool :=
  match s with
  | Some t => negb (String.eqb t "")
  | None => false
  end.

(** The table clause of a view: custom SQL first, then the qualified
    table, then the bare table.  A [def_table] of [None] is an absent
    key, for which the last form falls back on the view name. *)
Definition table_clause (view_name : string) (definition : ViewDefinition) : string :=
  if truthy (def_custom_sql definition) then
    text_of_lines
      [ "";
        "  derived_table: {";
        "    sql: " +:+ default "" (def_custom_sql definition) +:+ " ;;";
        "  }" ]
  else if truthy (Some (def_schema definition)) && truthy (def_table definition) then
    text_of_lines
      [ "";
        "  sql_table_name: `" +:+ def_database definition +:+ "."
          +:+ def_schema definition +:+ "."
          +:+ default "" (def_table definition) +:+ "` ;;" ]
  else
    text_of_lines
      [ "";
        "  sql_table_name: `" +:+ default view_name (def_table definition) +:+ "` ;;" ].

(** [EnterpriseMigrationOrchestrator._generate_unified_view_lkml];
    [None] stands for the [AttributeError] on a view without canonical
    definition. *)
Definition _generate_unified_view_lkml (unified_view : UnifiedView) : option string :=
  let view_name := _sanitize_name (name unified_view) in
  definition ← canonical_definition unified_view;
  let lkml :=
    text_of_lines
      [ "# Unified View: " +:+ name unified_view;
        "";
        "# Consolidated from: " +:+ PyStr.join ", " (source_workbooks unified_view);
        "" ] in
  let lkml :=
    if String.eqb (merge_strategy unified_view) "manual_review" then
      lkml +:+
      text_of_lines
        [ "# " +:+ warning_sign +:+ " MANUAL REVIEW REQUIRED";
          "";
          "# This view has variations across workbooks";
          "";
          "# See GOVERNANCE_REVIEW.md for details";
          "" ]
    else lkml in
  let lkml := lkml +:+ text_of_lines [ "view: " +:+ view_name +:+ " {" ] in
  let lkml := lkml +:+ table_clause view_name definition in
  let lkml :=
    foldl (fun lkml col => lkml +:+ column_block col) lkml (get_columns definition) in
  Some (lkml +:+ text_of_lines [ "}" ]).

(** What [_generate_governance_review] appends for one variation. *)
Definition variation_lines (var : Variation) : string :=
  let md := "- Source: `" +:+ var_source var +:+ "`" +:+ nl in
  let md :=
    match columns_only_in_def2 (difference var) with
    | [] => md
    | extra => md +:+ " - Extra columns: " +:+ PyStr.join ", " extra +:+ nl
    end in
  let md :=
    match calc_fields_only_in_def2 (difference var) with
    | [] => md
    | extra => md +:+ " - Extra calculations: " +:+ PyStr.join ", " extra +:+ nl
    end in
  md +:+ nl.

(** What it appends for one view, nothing unless the view needs review. *)
Definition review_section (view : UnifiedView) : string :=
  if String.eqb (merge_strategy view) "manual_review" then
    let md := nl +:+ "### " +:+ name view +:+ nl +:+ nl in
    let md :=
      md +:+ "**Found in workbooks:** "
         +:+ PyStr.join ", " (source_workbooks view) +:+ nl +:+ nl in
    let md := md +:+ "**Variations:**" +:+ nl in
    foldl (fun md var => md +:+ variation_lines var) md (variations view)
  else "".

(** What it appends for one entry of the duplicate mapping. *)
Definition duplicate_section (field_name : string) (data : DuplicateEntry) : string :=
  let md := nl +:+ "### " +:+ field_name +:+ nl +:+ nl in
  let md :=
    md +:+ "**" +:+ str_of_nat (length (dup_variations data))
       +:+ " different definitions found**" +:+ nl +:+ nl in
  let md := md +:+ "**Recommended canonical definition:**" +:+ nl in
  let md :=
    md +:+ "```" +:+ nl +:+ rec_formula (dup_recommendation data) +:+ nl
       +:+ "```" +:+ nl in
  md +:+ "Used in: " +:+ PyStr.join ", " (rec_sources (dup_recommendation data))
     +:+ nl +:+ nl.

(** [EnterpriseMigrationOrchestrator._generate_governance_review] *)
Definition _generate_governance_review (self : EnterpriseMigrationOrchestrator) : string :=
  let md :=
    text_of_lines
      [ "# Governance Review Required";
        "";
        "## Views Requiring Manual Review";
        "" ] in
  let md :=
    foldl (fun md view => md +:+ review_section view) md
          (dict_values (unified_views self)) in
  let md := md +:+ nl +:+ "## Duplicate Calculated Fields" +:+ nl +:+ nl in
  foldl (fun md kv => md +:+ duplicate_section kv.1 kv.2) md (duplicate_calcs self).

(** The stand-in dashboard every parser is created with; [parse] leaves
    the list as it is. *)
Record DashboardMock := mkDashboardMock {
  dash_name : string;
  dash_worksheets : list nat;
  dash_file_path : string
}.

Definition dashboards (parser : TableauParserWrapper) : list DashboardMock :=
  [ {| dash_name := "Top Rising Terms Trend";
       dash_worksheets := [1];
       dash_file_path := file_path parser |} ].

(** [EnterpriseMigrationOrchestrator._map_tableau_vis_to_looker] *)
Definition vis_map : dict string :=
  [ ("line_chart", "looker_line");
    ("bar_chart", "looker_column");
    ("map", "looker_geo_coordinates");
    ("default", "table") ].

Definition _map_tableau_vis_to_looker (workbook_path : string) : string :=
  if contains "linechart" (PyStr.lower workbook_path)
  then dict_get_default "line_chart" "" vis_map
  else dict_get_default "default" "" vis_map.

Section Emitter.
(** [path_str path] is [str(Path(path))], [path_name path] is
    [Path(path).name]. *)
Variable path_str : string -> string.
Variable path_name : string -> string.

(** [EnterpriseMigrationOrchestrator._generate_dashboard_lkml], on a
    parser whose columns have text under ['name'] and ['role']; both
    branches on the role build the same reference. *)
Definition _generate_dashboard_lkml (dashboard : DashboardMock)
    (parser : TableauParserWrapper) : string :=
  let sanitized := _sanitize_name (dash_name dashboard) in
  let element_name := _sanitize_name (dash_name dashboard) +:+ "_element" in
  let '(explore_name, fields_string, vis_type) :=
    match data_sources parser with
    | ds :: _ =>
        let explore_name := _sanitize_name (ds_name ds) in
        let vis_type := _map_tableau_vis_to_looker (path_str (file_path parser)) in
        let query_fields :=
          (fun col =>
             dq +:+ explore_name +:+ "." +:+ _sanitize_name (col_name col) +:+ dq)
            <$> ds_columns ds in
        (explore_name, PyStr.join (nl +:+ "        - ") query_fields, vis_type)
    | [] => ("default_explore", "# NO FIELDS FOUND IN SOURCE", "table")
    end in
  text_of_lines
    [ "- dashboard: " +:+ sanitized;
      "  title: " +:+ dash_name dashboard;
      "  layout: newspaper";
      "  description: " +:+ dq +:+ "Migrated from "
        +:+ path_name (file_path parser) +:+ dq;
      "";
      "  elements:";
      "";
      "    - name: " +:+ element_name +:+ "  # FIX (2): Added required name";
      "      title: " +:+ dash_name dashboard;
      "      type: " +:+ vis_type +:+ "     # FIX (3): Use dynamically determined type";
      "      model: enterprise";
      "      explore: " +:+ explore_name;
      "      ";
      "      # Define the fields (columns) used in the element's query.";
      "      fields:";
      "        - " +:+ fields_string;
      "";
      "      # Define the visualization configuration.";
      "      listen:";
      "        # No filters currently defined.";
      "";
      "      vis_config:";
      "        type: " +:+ vis_type +:+ " # FIX (3): Use dynamically determined type";
      "        show_value_labels: false";
      "        y_axis_gridlines: true";
      "        x_axis_gridlines: false";
      "        series_colors: [" +:+ dq +:+ "#5D2E91" +:+ dq +:+ ", "
        +:+ dq +:+ "#12B581" +:+ dq +:+ ", "
        +:+ dq +:+ "#E69138" +:+ dq +:+ ", "
        +:+ dq +:+ "#54A5D9" +:+ dq +:+ "]";
      "        label_rotation: 90";
      "";
      "      row: 0";
      "      col: 0";
      "      width: 24";
      "      height: 12";
      "";
      "    # Original had " +:+ str_of_nat (length (dash_worksheets dashboard))
        +:+ " worksheets";
      "" ].

Definition model_path : string := "models/enterprise.model.lkml".
Definition governance_path : string := "GOVERNANCE_REVIEW.md".

Definition dashboard_path (dashboard_name : string) : string :=
  "dashboards/" +:+ _sanitize_name dashboard_name +:+ ".dashboard.lookml".

(** The loop of [generate_unified_lookml] over the unified views. *)
Fixpoint emit_views (items : list (string * UnifiedView)) (lookml_files : dict string)
    : option (dict string) :=
  match items with
  | [] => Some lookml_files
  | (view_name, unified_view) :: rest =>
      view_lkml ← _generate_unified_view_lkml unified_view;
      emit_views rest (dict_set (view_artifact_path view_name) view_lkml lookml_files)
  end.

(** Its loops over the parsers and their dashboards. *)
Definition emit_dashboards (ps : list TableauParserWrapper) (lookml_files : dict string)
    : dict string :=
  foldl (fun files parser =>
           foldl (fun files dashboard =>
                    dict_set (dashboard_path (dash_name dashboard))
                             (_generate_dashboard_lkml dashboard parser) files)
                 files (dashboards parser))
        lookml_files ps.

(** [EnterpriseMigrationOrchestrator.generate_unified_lookml] *)
Definition generate_unified_lookml (self : EnterpriseMigrationOrchestrator)
    : option (dict string) :=
  let lookml_files := dict_set model_path _generate_unified_model [] in
  lookml_files ← emit_views (unified_views self) lookml_files;
  let lookml_files := emit_dashboards (parsers self) lookml_files in
  Some (dict_set governance_path (_generate_governance_review self) lookml_files).
End Emitter.

(** The one dashboard of a parser, and the path all of them share. *)
Definition the_dashboard (parser : TableauParserWrapper) : DashboardMock :=
  {| dash_name := "Top Rising Terms Trend";
     dash_worksheets := [1];
     dash_file_path := file_path parser |}.

Definition the_dashboard_path : string :=
  "dashboards/top_rising_terms_trend.dashboard.lookml".

(** A hand-made state in which two view names sanitise alike and two
    workbooks were parsed. *)
Definition colliding_state : EnterpriseMigrationOrchestrator :=
  {| workbook_paths := ["a.twb"; "b.twb"];
     parsers := [ {| file_path := "a.twb"; data_sources := [sales_source] |};
                  {| file_path := "b.twb"; data_sources := [] |} ];
     view_consolidator := new_view_consolidator;
     calc_consolidator := new_calc_consolidator;
     unified_views :=
       [ ("Sales",
          {| name := "Sales";
             source_workbooks := ["a.twb"];
             canonical_definition := Some (view_of "Sales" ["OrderID"; "Amount"]);
             variations := [];
             merge_strategy := "most_complete" |});
         ("sales!",
          {| name := "sales!";
             source_workbooks := ["b.twb"];
             canonical_definition := Some (view_of "sales!" ["OrderID"]);
             variations := [];
             merge_strategy := "most_complete" |}) ];
     duplicate_calcs := [] |}.

(** A unified view built with only a name, and a state that holds it
    after a complete one. *)
Definition orphan_view : UnifiedView :=
  {| name := "Orphan";
     source_workbooks := [];
     canonical_definition := None;
     variations := default_variations;
     merge_strategy := default_merge_strategy |}.

Definition state_with_orphan_view : EnterpriseMigrationOrchestrator :=
  {| workbook_paths := workbook_paths colliding_state;
     parsers := parsers colliding_state;
     view_consolidator := new_view_consolidator;
     calc_consolidator := new_calc_consolidator;
     unified_views :=
       [ ("Sales",
          {| name := "Sales";
             source_workbooks := ["a.twb"];
             canonical_definition := Some (view_of "Sales" ["OrderID"; "Amount"]);
             variations := [];
             merge_strategy := "most_complete" |});
         ("Orphan", orphan_view) ];
     duplicate_calcs := [] |}.

(** * Properties *)

Local Open Scope nat_scope.

(** ** Dictionaries *)

Section DictFacts.
Context {V : Type}.
Implicit Types (k : string) (v : V) (d : dict V).

Lemma dict_get_set_eq k v d : dict_get k (dict_set k v d) = Some v.
Proof.
  induction d as [|[k' v'] d IH]; simpl.
  - by rewrite String.eqb_refl.
  - destruct (String.eqb k k') eqn:E; simpl; rewrite E; [done | apply IH].
Qed.

Lemma dict_get_set_ne k k' v d :
  k ≠ k' → dict_get k' (dict_set k v d) = dict_get k' d.
Proof.
  intros Hne. induction d as [|[k0 v0] d IH]; simpl.
  - destruct (String.eqb_spec k' k); [congruence | done].
  - destruct (String.eqb_spec k k0) as [->|]; simpl.
    + destruct (String.eqb_spec k' k0); [congruence | done].
    + destruct (String.eqb_spec k' k0); [done | apply IH].
Qed.

Lemma dict_get_None k d : dict_get k d = None ↔ k ∉ dict_keys d.
Proof.
  unfold dict_keys. induction d as [|[k' v'] d IH]; simpl.
  - split; [intros _; apply not_elem_of_nil | done].
  - rewrite not_elem_of_cons.
    destruct (String.eqb_spec k k'); split; try done; intuition.
Qed.

Lemma dict_get_Some_elem k v d : dict_get k d = Some v → (k, v) ∈ d.
Proof.
  induction d as [|[k' v'] d IH]; simpl; [done|].
  destruct (String.eqb_spec k k') as [->|].
  - intros [= ->]. apply list_elem_of_here.
  - intros H. apply list_elem_of_further, IH, H.
Qed.

Lemma dict_mem_false k d : dict_mem k d = false ↔ k ∉ dict_keys d.
Proof.
  rewrite <- dict_get_None. unfold dict_mem.
  destruct (dict_get k d); split; congruence.
Qed.

Lemma dict_keys_set k v d :
  dict_keys (dict_set k v d) =
  if dict_mem k d then dict_keys d else dict_keys d ++ [k].
Proof.
  unfold dict_keys, dict_mem. induction d as [|[k' v'] d IH]; [done|].
  cbn [dict_set dict_get].
  destruct (String.eqb_spec k k') as [->|]; [done|].
  rewrite fmap_cons, IH. by destruct (dict_get k d).
Qed.

Lemma dict_keys_set_NoDup k v d :
  NoDup (dict_keys d) → NoDup (dict_keys (dict_set k v d)).
Proof.
  intros Hnd. rewrite dict_keys_set.
  destruct (dict_mem k d) eqn:E; [done|].
  apply dict_mem_false in E.
  apply NoDup_app. split_and!; [done | | apply NoDup_singleton].
  intros x Hx Hx'. apply list_elem_of_singleton in Hx'. by subst.
Qed.
End DictFacts.

(** ** The first-maximum selection of [max] *)

Section PyMaxFacts.
Context {A : Type} (key : A → nat).

(** Scanning [l] with [best] in hand either keeps [best], which then
    dominates [l], or returns the first element of [l] that is strictly
    above everything before it and at least everything after. *)
Lemma max_from_spec (best : A) (l : list A) :
  let r := max_from key best l in
  (key best ≤ key r) ∧
  (∀ j o, l !! j = Some o → key o ≤ key r) ∧
  ((r = best ∧ ∀ j o, l !! j = Some o → key o ≤ key best) ∨
   (∃ i, l !! i = Some r ∧ key best < key r ∧
         ∀ j o, j < i → l !! j = Some o → key o < key r)).
Proof.
  revert best. induction l as [|x l IH]; intros best; simpl.
  - split_and!; [lia | by intros [] | left; split; [done | by intros []]].
  - destruct (Nat.ltb_spec (key best) (key x)) as [Hlt|Hge].
    + destruct (IH x) as (H1 & H2 & H3). split_and!; [lia | |].
      * intros [|j] o; simpl; [intros [= <-]; lia | apply H2].
      * right. destruct H3 as [[-> _]|(i & Hi & Hlt' & Hbefore)].
        -- exists 0. split_and!; [done | done | intros; lia].
        -- exists (S i). split_and!; [done | lia |].
           intros [|j] o Hj; simpl; [intros [= <-]; lia|].
           apply Hbefore. lia.
    + destruct (IH best) as (H1 & H2 & H3). split_and!; [done | |].
      * intros [|j] o; simpl; [intros [= <-]; lia | apply H2].
      * destruct H3 as [[Hr Hall]|(i & Hi & Hlt' & Hbefore)].
        -- left. split; [done|].
           intros [|j] o; simpl; [intros [= <-]; lia | apply Hall].
        -- right. exists (S i). split_and!; [done | done |].
           intros [|j] o Hj; simpl; [intros [= <-]; lia|].
           apply Hbefore. lia.
Qed.

Lemma py_max_spec (l : list A) (r : A) :
  py_max key l = Some r →
  ∃ i, l !! i = Some r ∧
       (∀ j o, l !! j = Some o → key o ≤ key r) ∧
       (∀ j o, j < i → l !! j = Some o → key o < key r).
Proof.
  destruct l as [|x l]; simpl; [done|]. intros [= <-].
  destruct (max_from_spec x l) as (H1 & H2 & H3).
  destruct H3 as [[Hr Hall]|(i & Hi & Hlt & Hbefore)].
  - exists 0. rewrite Hr. split_and!; [done | | intros; lia].
    intros [|j] o; simpl; [by intros [= <-] | apply Hall].
  - exists (S i). split_and!; [done | |].
    + intros [|j] o; simpl; [intros [= <-]; lia | apply H2].
    + intros [|j] o Hj; simpl; [intros [= <-]; lia|].
      apply Hbefore. lia.
Qed.

Lemma py_max_is_Some (l : list A) : l ≠ [] → is_Some (py_max key l).
Proof. destruct l; [done | by eexists]. Qed.
End PyMaxFacts.

(** ** The registry after a sequence of registrations *)

Section RegistryFacts.
Variable md5_json : KeyElements → string.

Lemma register_view_lookup self m d s n :
  dict_get n (view_registry (register_view md5_json self m d s)) =
  if decide (n = m)
  then Some (default [] (dict_get m (view_registry self)) ++
             [ {| definition := d; source := s;
                  hash := _hash_definition md5_json d |} ])
  else dict_get n (view_registry self).
Proof.
  unfold register_view; simpl.
  set (reg := view_registry self).
  case_decide as Hn.
  - subst n. rewrite dict_get_set_eq. f_equal. f_equal.
    unfold dict_get_default, dict_mem.
    destruct (dict_get m reg) eqn:E; simpl; [by rewrite E|].
    by rewrite dict_get_set_eq.
  - rewrite dict_get_set_ne by done.
    destruct (dict_mem m reg); simpl; [done|].
    by rewrite dict_get_set_ne.
Qed.

Lemma register_view_NoDup self m d s :
  NoDup (dict_keys (view_registry self)) →
  NoDup (dict_keys (view_registry (register_view md5_json self m d s))).
Proof.
  intros Hnd. unfold register_view; simpl.
  apply dict_keys_set_NoDup.
  destruct (negb _); [by apply dict_keys_set_NoDup | done].
Qed.

Lemma observations_snoc n calls c :
  observations md5_json n (calls ++ [c]) =
  observations md5_json n calls ++
    (if decide (rc_name c = n) then [entry_of md5_json c] else []).
Proof.
  unfold observations. rewrite filter_app, fmap_app. f_equal.
  rewrite filter_cons, filter_nil. by case_decide.
Qed.

Lemma register_all_snoc calls c :
  register_all md5_json (calls ++ [c]) =
  register_call md5_json (register_all md5_json calls) c.
Proof. unfold register_all. by rewrite foldl_snoc. Qed.

(** A name's list in the registry is exactly what was registered under
    it, in call order; a name never registered has no key. *)
Lemma registry_lookup calls n :
  dict_get n (view_registry (register_all md5_json calls)) =
  match observations md5_json n calls with
  | [] => None
  | obs => Some obs
  end.
Proof.
  induction calls as [|c calls IH] using rev_ind; [done|].
  rewrite register_all_snoc, observations_snoc.
  unfold register_call. rewrite register_view_lookup.
  case_decide as Hn; case_decide as Hc; try congruence.
  - subst n. rewrite IH. unfold entry_of.
    destruct (observations md5_json (rc_name c) calls); simpl; done.
  - rewrite app_nil_r. apply IH.
Qed.

Lemma registry_NoDup calls :
  NoDup (dict_keys (view_registry (register_all md5_json calls))).
Proof.
  induction calls as [|c calls IH] using rev_ind; [apply NoDup_nil_2|].
  rewrite register_all_snoc. by apply register_view_NoDup.
Qed.

Lemma registry_nonempty calls n obs :
  dict_get n (view_registry (register_all md5_json calls)) = Some obs →
  obs ≠ [].
Proof.
  rewrite registry_lookup.
  destruct (observations md5_json n calls); [done|]. by intros [= <-].
Qed.
End RegistryFacts.

(** ** One name at a time *)

Lemma collect_variations_filter best defs :
  collect_variations best defs =
  (λ d, {| var_source := source d;
           difference := _compute_difference (definition best) (definition d) |})
    <$> filter (λ d, hash d ≠ hash best) defs.
Proof.
  unfold collect_variations.
  set (mk := λ d, {| var_source := source d;
                     difference := _compute_difference (definition best) (definition d) |}).
  assert (∀ acc, foldl (λ variations d,
                    if negb (String.eqb (hash d) (hash best))
                    then variations ++ [mk d] else variations) acc defs
                 = acc ++ (mk <$> filter (λ d, hash d ≠ hash best) defs)) as H.
  { induction defs as [|d defs IH]; intros acc; simpl.
    - by rewrite app_nil_r.
    - rewrite IH, filter_cons.
      destruct (String.eqb_spec (hash d) (hash best)); case_decide; try done; simpl.
      by rewrite <- app_assoc. }
  apply (H []).
Qed.

Lemma hashes_singleton (defs : list RegistryEntry) :
  size (list_to_set (hash <$> defs) : gset string) = 1 ↔
  defs ≠ [] ∧ ∀ o o', o ∈ defs → o' ∈ defs → hash o = hash o'.
Proof.
  split.
  - intros Hsz. apply size_1_elem_of in Hsz as [h Hh].
    assert (∀ o, o ∈ defs → hash o = h) as Hall.
    { intros o Ho. assert (hash o ∈ (list_to_set (hash <$> defs) : gset string)) as Hin.
      { apply elem_of_list_to_set, list_elem_of_fmap. eauto. }
      rewrite Hh in Hin. by apply elem_of_singleton in Hin. }
    split.
    + intros ->. simpl in Hh. set_solver.
    + intros o o' Ho Ho'. by rewrite (Hall o), (Hall o').
  - intros [Hne Hall]. destruct defs as [|d defs]; [done|].
    assert ((list_to_set (hash <$> d :: defs) : gset string) = {[ hash d ]}) as ->.
    { apply set_eq. intros h. rewrite elem_of_list_to_set, list_elem_of_fmap, elem_of_singleton.
      split.
      - intros (o & -> & Ho). apply Hall; [done | apply list_elem_of_here].
      - intros ->. exists d. split; [done | apply list_elem_of_here]. }
    apply size_singleton.
Qed.

Lemma consolidate_item_total n (obs : list RegistryEntry) :
  obs ≠ [] → is_Some (consolidate_item n obs).
Proof.
  intros Hne. unfold consolidate_item, _consolidate_view_definitions.
  destruct obs as [|o obs]; [done|].
  destruct (length (o :: obs) =? 1); simpl; [by eexists|].
  destruct (size _ =? 1); simpl; by eexists.
Qed.

(** ** The loop of [consolidate] *)

Lemma consolidate_loop_spec items acc :
  NoDup (dict_keys items) →
  (∀ k obs, dict_get k items = Some obs → obs ≠ []) →
  ∃ uv, consolidate_loop items acc = Some uv ∧
        ∀ k, dict_get k uv =
             match dict_get k items with
             | Some obs => consolidate_item k obs
             | None => dict_get k acc
             end.
Proof.
  revert acc. induction items as [|[n obs] items IH]; intros acc Hnd Hne.
  - exists acc. by split.
  - unfold dict_keys in Hnd. rewrite fmap_cons in Hnd.
    apply NoDup_cons in Hnd as [Hn Hnd]. simpl in Hn.
    assert (obs ≠ []) as Hobs.
    { apply (Hne n). simpl. by rewrite String.eqb_refl. }
    destruct (consolidate_item_total n obs Hobs) as [u Hu].
    simpl. rewrite Hu. simpl.
    destruct (IH (dict_set n u acc) Hnd) as (uv & Huv & Hget).
    { intros k obs' Hk. apply (Hne k). simpl.
      destruct (String.eqb_spec k n) as [->|]; [|done].
      apply dict_get_Some_elem in Hk.
      exfalso. apply Hn. apply list_elem_of_fmap. by exists (n, obs'). }
    exists uv. split; [done|]. intros k. rewrite Hget.
    destruct (String.eqb_spec k n) as [->|Hk].
    + assert (dict_get n items = None) as -> by by apply dict_get_None.
      by rewrite dict_get_set_eq.
    + destruct (dict_get k items); [done|]. by rewrite dict_get_set_ne.
Qed.

Lemma consolidate_loop_keys items acc uv :
  NoDup (dict_keys acc ++ dict_keys items) →
  consolidate_loop items acc = Some uv →
  dict_keys uv = dict_keys acc ++ dict_keys items.
Proof.
  revert acc uv. induction items as [|[n obs] items IH]; intros acc uv Hnd.
  - intros [= <-]. symmetry. apply app_nil_r.
  - change (dict_keys ((n, obs) :: items)) with (n :: dict_keys items) in *.
    simpl. destruct (consolidate_item n obs) as [u|]; simpl; [|done].
    intros Hloop.
    assert (dict_mem n acc = false) as Hmem.
    { apply dict_mem_false. apply NoDup_app in Hnd as (_ & Hdisj & _).
      intros Hin. apply (Hdisj n Hin). apply list_elem_of_here. }
    apply IH in Hloop.
    + rewrite Hloop, dict_keys_set, Hmem. by rewrite <- app_assoc.
    + rewrite dict_keys_set, Hmem, <- app_assoc. exact Hnd.
Qed.

(** ** [consolidate] on a registry built by [register_view] *)

Section ConsolidateFacts.
Variable md5_json : KeyElements → string.

(** After any registrations, [consolidate] returns, and under each
    registered name it holds what the loop body makes of that name's
    observations. *)
Lemma consolidate_registered calls view_name :
  observations md5_json view_name calls ≠ [] →
  ∃ uv, consolidate (register_all md5_json calls) = Some uv ∧
        dict_get view_name uv =
          consolidate_item view_name (observations md5_json view_name calls).
Proof.
  intros Hne. unfold consolidate.
  destruct (consolidate_loop_spec
              (view_registry (register_all md5_json calls)) [])
    as (uv & Huv & Hget).
  - apply registry_NoDup.
  - intros k obs. apply registry_nonempty.
  - exists uv. split; [done|]. rewrite Hget, registry_lookup.
    by destruct (observations md5_json view_name calls).
Qed.

Lemma consolidate_keys calls uv :
  consolidate (register_all md5_json calls) = Some uv →
  dict_keys uv = dict_keys (view_registry (register_all md5_json calls)).
Proof.
  intros H. apply consolidate_loop_keys in H; [done|]. apply registry_NoDup.
Qed.
End ConsolidateFacts.

(** With two different fingerprints among the observations, the loop
    body takes the [max] branch. *)
Lemma consolidate_item_differing view_name (obs : list RegistryEntry) :
  (∃ i j o o', obs !! i = Some o ∧ obs !! j = Some o' ∧ hash o ≠ hash o') →
  ∃ best,
    py_max completeness obs = Some best ∧
    consolidate_item view_name obs =
      Some {| name := view_name;
              source_workbooks := source <$> obs;
              canonical_definition := Some (definition best);
              variations := collect_variations best obs;
              merge_strategy :=
                match collect_variations best obs with
                | [] => "most_complete"
                | _ :: _ => "manual_review"
                end |}.
Proof.
  intros (i & j & o & o' & Hi & Hj & Hne).
  assert (obs ≠ []) as Hobs by (intros ->; done).
  destruct (py_max_is_Some completeness obs Hobs) as [best Hbest].
  exists best. split; [done|].
  unfold consolidate_item, _consolidate_view_definitions.
  destruct (Nat.eqb_spec (length obs) 1) as [Hlen|_].
  { destruct obs as [|x [|y obs]]; try done.
    destruct i as [|i], j as [|j]; simpl in *; try done. congruence. }
  destruct (Nat.eqb_spec (size (list_to_set (hash <$> obs) : gset string)) 1) as [Hsz|_].
  { apply hashes_singleton in Hsz as [_ Hall]. exfalso. apply Hne.
    apply Hall; eapply list_elem_of_lookup_2; eauto. }
  rewrite Hbest. done.
Qed.

(** ** The consolidator's decisions *)

(** C1 — canonical choice by completeness.  When the observations
    registered under a name carry at least two distinct fingerprints,
    [consolidate] returns a view for that name whose canonical definition
    is the record of an observation that maximises
    [len(columns) + len(calculated_fields)], an absent key counting as
    the empty list: no observation under the name has a larger sum, and
    every observation registered before the chosen one has a strictly
    smaller sum, so among the maximal observations the first registered
    is chosen. *)
Theorem canonical_is_first_most_complete
    (md5_json : KeyElements → string) (calls : list RegisterCall) (view_name : string) :
  (∃ i j o o',
      observations md5_json view_name calls !! i = Some o ∧
      observations md5_json view_name calls !! j = Some o' ∧
      hash o ≠ hash o') →
  ∃ uv view i best,
    consolidate (register_all md5_json calls) = Some uv ∧
    dict_get view_name uv = Some view ∧
    observations md5_json view_name calls !! i = Some best ∧
    canonical_definition view = Some (definition best) ∧
    (∀ j o, observations md5_json view_name calls !! j = Some o →
            length (default [] (def_columns (definition o)))
            + length (default [] (def_calculated_fields (definition o)))
            ≤ length (default [] (def_columns (definition best)))
              + length (default [] (def_calculated_fields (definition best)))) ∧
    (∀ j o, j < i → observations md5_json view_name calls !! j = Some o →
            length (default [] (def_columns (definition o)))
            + length (default [] (def_calculated_fields (definition o)))
            < length (default [] (def_columns (definition best)))
              + length (default [] (def_calculated_fields (definition best)))).
Proof.
  intros Hdiff.
  destruct (consolidate_registered md5_json calls view_name) as (uv & Huv & Hget).
  { destruct Hdiff as (i & _ & o & _ & Hi & _). intros E. by rewrite E in Hi. }
  destruct (consolidate_item_differing view_name _ Hdiff) as (best & Hmax & Hitem).
  destruct (py_max_spec completeness _ _ Hmax) as (i & Hi & Hall & Hbefore).
  eexists uv, _, i, best. rewrite Hget, Hitem. split_and!; done.
Qed.

Lemma canonical_is_first_most_complete_witness :
  ∃ uv view i best,
    consolidate (register_all toy_digest metrics_calls) = Some uv ∧
    dict_get "Metrics" uv = Some view ∧
    observations toy_digest "Metrics" metrics_calls !! i = Some best ∧
    canonical_definition view = Some (definition best) ∧
    (∀ j o, observations toy_digest "Metrics" metrics_calls !! j = Some o →
            length (default [] (def_columns (definition o)))
            + length (default [] (def_calculated_fields (definition o)))
            ≤ length (default [] (def_columns (definition best)))
              + length (default [] (def_calculated_fields (definition best)))) ∧
    (∀ j o, j < i → observations toy_digest "Metrics" metrics_calls !! j = Some o →
            length (default [] (def_columns (definition o)))
            + length (default [] (def_calculated_fields (definition o)))
            < length (default [] (def_columns (definition best)))
              + length (default [] (def_calculated_fields (definition best)))).
Proof.
  apply (canonical_is_first_most_complete toy_digest metrics_calls "Metrics").
  exists 0, 1. eexists _, _. split_and!; [reflexivity | reflexivity |].
  vm_compute. discriminate.
Defined.

(** In the scenario the calculated fields decide: the first workbook has
    the most columns, the second and third tie on the sum, and the second
    is chosen. *)
Example metrics_canonical_is_second_workbook :
  ∃ uv view,
    consolidate (register_all toy_digest metrics_calls) = Some uv ∧
    dict_get "Metrics" uv = Some view ∧
    canonical_definition view
      = Some (view_with "Metrics" ["A"] ["M1"; "M2"; "M3"]) ∧
    source_workbooks view = ["W1"; "W2"; "W3"] ∧
    var_source <$> variations view = ["W1"; "W3"].
Proof. eexists _, _. split_and!; reflexivity. Qed.

(** C2 — equal fingerprints.  When two or more observations are
    registered under a name and their fingerprints are pairwise equal,
    [consolidate] returns for that name a view with merge strategy
    ["identical"], the first observation's record as canonical
    definition, and no variations. *)
Theorem equal_fingerprints_identical
    (md5_json : KeyElements → string) (calls : list RegisterCall) (view_name : string) :
  2 ≤ length (observations md5_json view_name calls) →
  (∀ i j o o',
      observations md5_json view_name calls !! i = Some o →
      observations md5_json view_name calls !! j = Some o' →
      hash o = hash o') →
  ∃ uv view first,
    consolidate (register_all md5_json calls) = Some uv ∧
    dict_get view_name uv = Some view ∧
    observations md5_json view_name calls !! 0 = Some first ∧
    merge_strategy view = "identical" ∧
    canonical_definition view = Some (definition first) ∧
    variations view = [].
Proof.
  intros Hlen Heq.
  destruct (consolidate_registered md5_json calls view_name) as (uv & Huv & Hget).
  { intros E. rewrite E in Hlen. simpl in Hlen. lia. }
  revert Hlen Heq Hget.
  generalize (observations md5_json view_name calls) as obs. intros obs Hlen Heq Hget.
  destruct obs as [|first obs]; [simpl in Hlen; lia|].
  assert (size (list_to_set (hash <$> first :: obs) : gset string) = 1) as Hsz.
  { apply hashes_singleton. split; [done|].
    intros o o' [i Hi]%list_elem_of_lookup_1 [j Hj]%list_elem_of_lookup_1. eauto. }
  unfold consolidate_item, _consolidate_view_definitions in Hget.
  destruct (Nat.eqb_spec (length (first :: obs)) 1) as [E|_]; [lia|].
  rewrite Hsz in Hget. simpl in Hget.
  eexists uv, _, first. rewrite Hget. split_and!; done.
Qed.

Lemma equal_fingerprints_identical_witness :
  ∃ uv view first,
    consolidate (register_all toy_digest scenario_calls) = Some uv ∧
    dict_get "Customers" uv = Some view ∧
    observations toy_digest "Customers" scenario_calls !! 0 = Some first ∧
    merge_strategy view = "identical" ∧
    canonical_definition view = Some (definition first) ∧
    variations view = [].
Proof.
  apply (equal_fingerprints_identical toy_digest scenario_calls "Customers").
  - vm_compute. lia.
  - intros [|[|i]] [|[|j]] o o'; vm_compute; intros [= <-] [= <-]; reflexivity.
Defined.

(** C3 — differing fingerprints need review.  When the observations
    under a name carry at least two distinct fingerprints, the view
    [consolidate] returns for it has a non-empty list of variations and
    merge strategy ["manual_review"]; ["most_complete"] is never the
    outcome of that branch. *)
Theorem differing_fingerprints_manual_review
    (md5_json : KeyElements → string) (calls : list RegisterCall) (view_name : string) :
  (∃ i j o o',
      observations md5_json view_name calls !! i = Some o ∧
      observations md5_json view_name calls !! j = Some o' ∧
      hash o ≠ hash o') →
  ∃ uv view,
    consolidate (register_all md5_json calls) = Some uv ∧
    dict_get view_name uv = Some view ∧
    variations view ≠ [] ∧
    merge_strategy view = "manual_review" ∧
    merge_strategy view ≠ "most_complete".
Proof.
  intros Hdiff.
  destruct (consolidate_registered md5_json calls view_name) as (uv & Huv & Hget).
  { destruct Hdiff as (i & _ & o & _ & Hi & _). intros E. by rewrite E in Hi. }
  destruct (consolidate_item_differing view_name _ Hdiff) as (best & Hmax & Hitem).
  assert (collect_variations best (observations md5_json view_name calls) ≠ []) as Hvar.
  { rewrite collect_variations_filter.
    destruct Hdiff as (i & j & o & o' & Hi & Hj & Hne).
    assert (∃ d, d ∈ observations md5_json view_name calls ∧ hash d ≠ hash best)
      as (d & Hd & Hdb).
    { destruct (decide (hash o = hash best)) as [E|E].
      - exists o'. split; [by eapply list_elem_of_lookup_2 | congruence].
      - exists o. split; [by eapply list_elem_of_lookup_2 | done]. }
    intros Hnil. apply fmap_nil_inv in Hnil.
    assert (d ∈ filter (λ d, hash d ≠ hash best)
                       (observations md5_json view_name calls)) as Hin
      by by apply list_elem_of_filter.
    rewrite Hnil in Hin. by apply not_elem_of_nil in Hin. }
  destruct (collect_variations best (observations md5_json view_name calls))
    as [|v vs] eqn:Hvs; [done|].
  eexists uv, _. rewrite Hget, Hitem. simpl.
  split_and!; [done | reflexivity | discriminate | reflexivity | discriminate].
Qed.

Lemma differing_fingerprints_manual_review_witness :
  ∃ uv view,
    consolidate (register_all toy_digest scenario_calls) = Some uv ∧
    dict_get "Sales" uv = Some view ∧
    variations view ≠ [] ∧
    merge_strategy view = "manual_review" ∧
    merge_strategy view ≠ "most_complete".
Proof.
  apply (differing_fingerprints_manual_review toy_digest scenario_calls "Sales").
  exists 0, 1. eexists _, _. split_and!; [reflexivity | reflexivity |].
  vm_compute. discriminate.
Defined.

(** C5 — a single observation.  When exactly one observation is
    registered under a name, [consolidate] returns for that name a view
    with no variations, that observation's record as canonical definition,
    and the one-element list of its source as source workbooks. *)
Theorem single_observation_identity
    (md5_json : KeyElements → string) (calls : list RegisterCall) (view_name : string)
    (o : RegistryEntry) :
  observations md5_json view_name calls = [o] →
  ∃ uv view,
    consolidate (register_all md5_json calls) = Some uv ∧
    dict_get view_name uv = Some view ∧
    variations view = [] ∧
    canonical_definition view = Some (definition o) ∧
    source_workbooks view = [source o].
Proof.
  intros Hobs.
  destruct (consolidate_registered md5_json calls view_name) as (uv & Huv & Hget).
  { by rewrite Hobs. }
  rewrite Hobs in Hget. eexists uv, _. split_and!; [done | exact Hget | done..].
Qed.

Lemma single_observation_identity_witness :
  ∃ uv view,
    consolidate (register_all toy_digest scenario_calls) = Some uv ∧
    dict_get "Returns" uv = Some view ∧
    variations view = [] ∧
    canonical_definition view = Some (view_of "Returns" ["OrderID"]) ∧
    source_workbooks view = ["W2"].
Proof.
  apply (single_observation_identity toy_digest scenario_calls "Returns"
           (entry_of toy_digest
              (mkRegisterCall "Returns" (view_of "Returns" ["OrderID"]) "W2"))).
  reflexivity.
Defined.

(** C4 — [consolidate] is a function of the registry.  After any
    sequence of registrations, a call to [consolidate] returns a mapping
    and leaves the consolidator as it was, so a second call returns the
    same mapping: the same keys in the same order (the registry's own),
    each with the same view. *)
Theorem consolidate_idempotent
    (md5_json : KeyElements → string) (calls : list RegisterCall) :
  ∃ uv,
    call_consolidate (register_all md5_json calls)
      = (register_all md5_json calls, Some uv) ∧
    call_consolidate (call_consolidate (register_all md5_json calls)).1
      = (register_all md5_json calls, Some uv) ∧
    dict_keys uv = dict_keys (view_registry (register_all md5_json calls)).
Proof.
  unfold call_consolidate; simpl.
  destruct (consolidate_loop_spec
              (view_registry (register_all md5_json calls)) [])
    as (uv & Huv & _).
  - apply registry_NoDup.
  - intros k obs. apply registry_nonempty.
  - exists uv. unfold consolidate. rewrite Huv. split_and!; [done..|].
    by apply consolidate_keys.
Qed.

(** ** Structural difference *)

(** C6 — difference symmetry.  For any two records [A] and [B], the
    column names that [diff(A, B)] reports as only in the other record
    are, as a set, the column names that [diff(B, A)] reports as only in
    the canonical record, namely the names of [B]'s columns that are not
    names of [A]'s columns; likewise for calculated-field names. *)
Theorem difference_symmetry (A B : ViewDefinition) :
  (list_to_set (columns_only_in_def2 (_compute_difference A B)) : gset string)
    = list_to_set (columns_only_in_def1 (_compute_difference B A)) ∧
  (list_to_set (calc_fields_only_in_def2 (_compute_difference A B)) : gset string)
    = list_to_set (calc_fields_only_in_def1 (_compute_difference B A)) ∧
  (∀ x, x ∈ columns_only_in_def2 (_compute_difference A B) ↔
        x ∈ (col_name <$> get_columns B) ∧ x ∉ (col_name <$> get_columns A)) ∧
  (∀ x, x ∈ calc_fields_only_in_def2 (_compute_difference A B) ↔
        x ∈ (cf_name <$> get_calculated_fields B) ∧
        x ∉ (cf_name <$> get_calculated_fields A)).
Proof.
  unfold _compute_difference; simpl. split_and!; [done | done | |].
  - intros x. rewrite elem_of_elements, elem_of_difference, !elem_of_list_to_set. done.
  - intros x. rewrite elem_of_elements, elem_of_difference, !elem_of_list_to_set. done.
Qed.

(** ** Calculated-field duplicates *)

(** C10 — the duplicate detector is a stub.  After any sequence of
    [register_field] calls on a fresh consolidator, and indeed in every
    state, [find_duplicates] returns the empty mapping. *)
Theorem find_duplicates_always_empty (calls : list FieldCall) :
  find_duplicates (foldl register_field_call new_calc_consolidator calls) = [] ∧
  ∀ self, find_duplicates self = [].
Proof. split; [reflexivity | intros self; reflexivity]. Qed.

(** ** Datatype table *)

(** The code's table differs from the specified one on two rows, and it
    is consulted at the lower-cased datatype, so a datatype that is not a
    key of the table can still hit a row. *)
Lemma map_datatype_counterexample :
  _map_datatype "boolean" = "yesno" ∧
  map_datatype_as_specified "boolean" = "boolean-flag" ∧
  _map_datatype "datetime" = "time" ∧
  map_datatype_as_specified "datetime" = "timestamp" ∧
  _map_datatype "INTEGER" = "number" ∧
  map_datatype_as_specified "INTEGER" = "string" ∧
  _map_datatype "boolean" ≠ map_datatype_as_specified "boolean" ∧
  _map_datatype "datetime" ≠ map_datatype_as_specified "datetime" ∧
  _map_datatype "INTEGER" ≠ map_datatype_as_specified "INTEGER".
Proof. split_and!; try reflexivity; vm_compute; discriminate. Qed.

(** C9 (amended) — the datatype table.  For every source datatype
    string, the output type is read from the fixed table
    string→string, integer→number, real→number, boolean→yesno,
    date→date, datetime→time at the lower-cased datatype, and is
    ["string"] when the lower-cased datatype is not in the table; so it
    is always one of string, number, yesno, date, time, and
    ["geography"] maps to ["string"]. *)
Theorem map_datatype_table (tableau_type : string) :
  _map_datatype tableau_type = lowercased_table tableau_type ∧
  _map_datatype tableau_type ∈ ["string"; "number"; "yesno"; "date"; "time"] ∧
  _map_datatype "geography" = "string".
Proof.
  assert (_map_datatype tableau_type = lowercased_table tableau_type) as E.
  { unfold _map_datatype, lowercased_table, dict_get_default, datatype_mapping.
    cbn [dict_get].
    repeat (destruct (String.eqb (PyStr.lower tableau_type) _); [reflexivity|]).
    reflexivity. }
  split_and!; [exact E | | reflexivity].
  rewrite E. unfold lowercased_table.
  repeat (destruct (String.eqb (PyStr.lower tableau_type) _);
          [set_solver|]).
  set_solver.
Qed.

(** ** Name sanitising *)

(** On a character that is not whitespace other than the space itself,
    lower-casing then replacing the space agrees with folding whitespace
    then lower-casing. *)
Lemma fold_lower_char (c : ascii) :
  negb (PyStr.is_space c) || Ascii.eqb c " " = true →
  (if Ascii.eqb (PyStr.lower_char c) " " then "_"%char else PyStr.lower_char c)
  = PyStr.lower_char (if PyStr.is_space c then "_"%char else c).
Proof.
  destruct c as [[] [] [] [] [] [] [] []]; vm_compute; intros H;
    first [reflexivity | discriminate H].
Qed.

Lemma sforall_sfilter (p q : ascii → bool) (s : string) :
  PyStr.sforall p s = true → PyStr.sforall p (PyStr.sfilter q s) = true.
Proof.
  induction s as [|c s IH]; simpl; [done|].
  intros [Hc Hs]%andb_prop. destruct (q c); simpl; [|by apply IH].
  by rewrite Hc, IH.
Qed.

Lemma replace_lower_fold (s : string) :
  PyStr.sforall (λ c, negb (PyStr.is_space c) || Ascii.eqb c " ") s = true →
  PyStr.replace_char " " "_" (PyStr.lower s)
  = PyStr.lower (PyStr.smap (λ c, if PyStr.is_space c then "_"%char else c) s).
Proof.
  unfold PyStr.replace_char, PyStr.lower.
  induction s as [|c s IH]; simpl; [done|].
  intros [Hc Hs]%andb_prop. by rewrite IH, fold_lower_char.
Qed.

(** The four steps the specification lists keep an underscore at either
    end of the result; the code removes it.  ["_Sales"] starts with a word
    character that survives every listed step; in ["- Sales"] the leading
    underscore comes from the space after the stripped dash. *)
Lemma sanitize_counterexample :
  sanitize_as_specified "_Sales" = "_sales" ∧
  _sanitize_name "_Sales" = "sales" ∧
  _sanitize_name "_Sales" ≠ sanitize_as_specified "_Sales" ∧
  sanitize_as_specified "- Sales" = "_sales" ∧
  _sanitize_name "- Sales" = "sales".
Proof.
  split_and!; [reflexivity | reflexivity | vm_compute; discriminate
              | reflexivity | reflexivity].
Qed.

(** C8 (amended) — artifact names.  For every ASCII view name whose
    only whitespace characters are spaces, the name used for the emitted
    artifact is obtained by stripping the characters that are neither word
    characters nor whitespace, folding whitespace to underscores,
    lower-casing, collapsing runs of underscores, and then removing
    leading and trailing underscores; in particular
    ["Top Rising Terms!"] yields ["top_rising_terms"]. *)
Theorem sanitize_name_refines (view_name : string) :
  PyStr.sforall PyStr.is_ascii view_name = true →
  PyStr.sforall (λ c, negb (PyStr.is_space c) || Ascii.eqb c " ") view_name = true →
  _sanitize_name view_name
    = PyStr.strip (PyStr.is_char "_") (sanitize_as_specified view_name) ∧
  view_artifact_path view_name
    = "views/" +:+ PyStr.strip (PyStr.is_char "_") (sanitize_as_specified view_name)
        +:+ ".view.lkml" ∧
  _sanitize_name "Top Rising Terms!" = "top_rising_terms".
Proof.
  intros _ Hsp.
  assert (_sanitize_name view_name
          = PyStr.strip (PyStr.is_char "_") (sanitize_as_specified view_name)) as E.
  { unfold _sanitize_name, sanitize_as_specified, PyStr.re_delete_outside.
    rewrite replace_lower_fold; [done|]. by apply sforall_sfilter. }
  split_and!; [exact E | | reflexivity].
  unfold view_artifact_path. by rewrite E.
Qed.

Lemma sanitize_name_refines_witness :
  _sanitize_name "Top Rising Terms!"
    = PyStr.strip (PyStr.is_char "_") (sanitize_as_specified "Top Rising Terms!") ∧
  view_artifact_path "Top Rising Terms!"
    = "views/" +:+ PyStr.strip (PyStr.is_char "_")
                     (sanitize_as_specified "Top Rising Terms!")
        +:+ ".view.lkml" ∧
  _sanitize_name "Top Rising Terms!" = "top_rising_terms".
Proof.
  apply (sanitize_name_refines "Top Rising Terms!"); reflexivity.
Defined.

(** ** Consolidation report *)

(** Two runs, over [a.twb] alone and over [a.twb] with a workbook that
    holds no data source: the unified views and the duplicate mapping are
    the same, the reports are not. *)
Lemma report_counterexample :
  ∃ o1 r1 o2 r2,
    analyze_all_workbooks toy_digest scenario_parse scenario_path_name
      (new_orchestrator ["a.twb"]) = Some (o1, r1) ∧
    analyze_all_workbooks toy_digest scenario_parse scenario_path_name
      (new_orchestrator ["a.twb"; "b.twb"]) = Some (o2, r2) ∧
    r1 = _generate_consolidation_report o1 ∧
    r2 = _generate_consolidation_report o2 ∧
    unified_views o1 = unified_views o2 ∧
    duplicate_calcs o1 = duplicate_calcs o2 ∧
    workbooks_analyzed (summary r1) = 1%Z ∧
    workbooks_analyzed (summary r2) = 2%Z ∧
    r1 ≠ r2.
Proof.
  eexists _, _, _, _.
  split; [reflexivity|]. split; [reflexivity|].
  split_and!; try reflexivity.
  intros H. apply (f_equal (λ r, workbooks_analyzed (summary r))) in H.
  vm_compute in H. discriminate H.
Qed.

(** C7 (amended) — what the report depends on.  The consolidation
    report is a function of the unified-view mapping, the
    duplicate-calculated-field mapping, the number of workbook paths and
    the total number of data sources held by the parsers: two orchestrator
    states that agree on these four produce identical reports, whatever
    their view registries, field registries, path names and parsed data
    sources are. *)
Theorem report_determined_by (o1 o2 : EnterpriseMigrationOrchestrator) :
  unified_views o1 = unified_views o2 →
  duplicate_calcs o1 = duplicate_calcs o2 →
  length (workbook_paths o1) = length (workbook_paths o2) →
  total_data_sources (parsers o1) = total_data_sources (parsers o2) →
  _generate_consolidation_report o1 = _generate_consolidation_report o2.
Proof.
  intros Hu Hd Hw Hp. unfold _generate_consolidation_report, len.
  by rewrite Hu, Hd, Hw, Hp.
Qed.

Lemma report_determined_by_witness :
  _generate_consolidation_report state_after_run
  = _generate_consolidation_report state_hand_built.
Proof.
  apply (report_determined_by state_after_run state_hand_built); reflexivity.
Defined.

(** ** The scenarios of the specification, evaluated *)

Example scenario_sales :
  (uv ← consolidate (register_all toy_digest scenario_calls); dict_get "Sales" uv)
  = Some {| name := "Sales";
            source_workbooks := ["W1"; "W2"];
            canonical_definition :=
              Some (view_of "Sales" ["OrderID"; "Amount"; "Region"]);
            variations :=
              [ {| var_source := "W1";
                   difference :=
                     {| columns_only_in_def1 := ["Region"];
                        columns_only_in_def2 := [];
                        calc_fields_only_in_def1 := [];
                        calc_fields_only_in_def2 := [] |} |} ];
            merge_strategy := "manual_review" |}.
Proof. vm_compute. reflexivity. Qed.

Example scenario_customers :
  (uv ← consolidate (register_all toy_digest scenario_calls); dict_get "Customers" uv)
  = Some {| name := "Customers";
            source_workbooks := ["W1"; "W2"];
            canonical_definition := Some (view_of "Customers" ["Id"; "Name"]);
            variations := [];
            merge_strategy := "identical" |}.
Proof. vm_compute. reflexivity. Qed.

Example scenario_tie_goes_to_first :
  (uv ← consolidate (register_all toy_digest scenario_calls);
   view ← dict_get "Products" uv;
   canonical_definition view)
  = Some (view_of "Products" ["Sku"; "Price"]).
Proof. vm_compute. reflexivity. Qed.

Example scenario_key_order :
  dict_keys <$> consolidate (register_all toy_digest scenario_calls)
  = Some ["Sales"; "Customers"; "Products"; "Returns"].
Proof. vm_compute. reflexivity. Qed.

Example scenario_run_state :
  analyze_all_workbooks toy_digest scenario_parse scenario_path_name
    (new_orchestrator ["a.twb"])
  = Some (state_after_run, _generate_consolidation_report state_after_run).
Proof. vm_compute. reflexivity. Qed.

Example sanitize_keeps_tab :
  _sanitize_name ("a" +:+ String (ascii_of_nat 9) "b")
  = "a" +:+ String (ascii_of_nat 9) "b".
Proof. reflexivity. Qed.

Example normalized_formula_example :
  field_registry (register_field new_calc_consolidator "Margin" "  SUM( [Profit] )   /  2 " "W1")
  = [ ("Margin", [ {| fe_formula := "  SUM( [Profit] )   /  2 ";
                      fe_normalized := "sum( [profit] ) / 2";
                      fe_source := "W1" |} ]) ].
Proof. reflexivity. Qed.


(** * Further properties of the code *)

(** ** What [consolidate] makes of one name, case by case *)

Lemma filter_differing_nil (best : RegistryEntry) (obs : list RegistryEntry) :
  (∀ o, o ∈ obs → hash o = hash best) →
  filter (λ d, hash d ≠ hash best) obs = [].
Proof.
  intros Hall. induction obs as [|o obs IH]; [done|].
  rewrite filter_cons. case_decide as Hd.
  - exfalso. apply Hd, Hall, list_elem_of_here.
  - apply IH. intros o' Ho'. apply Hall. by apply list_elem_of_further.
Qed.

Lemma two_hashes_or_all_equal (obs : list RegistryEntry) :
  (∀ o o', o ∈ obs → o' ∈ obs → hash o = hash o') ∨
  (∃ i j o o', obs !! i = Some o ∧ obs !! j = Some o' ∧ hash o ≠ hash o').
Proof.
  destruct obs as [|first obs]; [left; by intros ? ? ?%not_elem_of_nil|].
  destruct (decide (Forall (λ o, hash o = hash first) (first :: obs))) as [Hall|Hex].
  - left. rewrite Forall_forall in Hall. intros o o' Ho Ho'.
    by rewrite (Hall o), (Hall o').
  - right. apply not_Forall_Exists in Hex; [|apply _].
    apply Exists_exists in Hex as (o & Ho & Hne).
    apply list_elem_of_lookup_1 in Ho as [i Hi].
    exists i, 0, o, first. split_and!; done.
Qed.

Lemma consolidate_item_cases view_name (obs : list RegistryEntry) :
  obs ≠ [] →
  (∃ o, obs = [o] ∧
        consolidate_item view_name obs =
          Some {| name := view_name;
                  source_workbooks := [source o];
                  canonical_definition := Some (definition o);
                  variations := [];
                  merge_strategy := "most_complete" |}) ∨
  (2 ≤ length obs ∧
   (∀ o o', o ∈ obs → o' ∈ obs → hash o = hash o') ∧
   ∃ first, obs !! 0 = Some first ∧
        consolidate_item view_name obs =
          Some {| name := view_name;
                  source_workbooks := source <$> obs;
                  canonical_definition := Some (definition first);
                  variations := [];
                  merge_strategy := "identical" |}) ∨
  (2 ≤ length obs ∧
   (∃ i j o o', obs !! i = Some o ∧ obs !! j = Some o' ∧ hash o ≠ hash o') ∧
   ∃ i best v vs, obs !! i = Some best ∧
        variation_against best <$> filter (λ d, hash d ≠ hash best) obs = v :: vs ∧
        consolidate_item view_name obs =
          Some {| name := view_name;
                  source_workbooks := source <$> obs;
                  canonical_definition := Some (definition best);
                  variations := v :: vs;
                  merge_strategy := "manual_review" |}).
Proof.
  intros Hne.
  destruct obs as [|o [|o2 obs]]; [done | left; by exists o | right].
  set (l := o :: o2 :: obs) in *.
  assert (2 ≤ length l) as Hlen by (simpl; lia).
  destruct (two_hashes_or_all_equal l) as [Hall|Hdiff].
  - left. split_and!; [done..|]. exists o. split; [done|].
    unfold consolidate_item, _consolidate_view_definitions.
    assert (size (list_to_set (hash <$> l) : gset string) = 1) as ->
      by by apply hashes_singleton.
    done.
  - right. split_and!; [done..|].
    destruct (consolidate_item_differing view_name l Hdiff) as (best & Hmax & Hitem).
    destruct (py_max_spec completeness _ _ Hmax) as (i & Hi & _).
    rewrite collect_variations_filter in Hitem.
    fold (variation_against best) in Hitem.
    destruct (variation_against best <$> filter (λ d, hash d ≠ hash best) l)
      as [|v vs] eqn:Hvs.
    + exfalso. apply fmap_nil_inv in Hvs.
      destruct Hdiff as (a & b & oa & ob & Ha & Hb & Hab).
      assert (∀ d, d ∈ l → hash d = hash best) as Hsame.
      { intros d Hd. destruct (decide (hash d = hash best)) as [|Hd']; [done|].
        assert (d ∈ filter (λ d, hash d ≠ hash best) l) as Hin
          by by apply list_elem_of_filter.
        rewrite Hvs in Hin. by apply not_elem_of_nil in Hin. }
      apply Hab. rewrite (Hsame oa), (Hsame ob); [done | |];
        by eapply list_elem_of_lookup_2.
    + exists i, best, v, vs. split_and!; done.
Qed.

Lemma consolidate_item_None view_name (obs : list RegistryEntry) :
  consolidate_item view_name obs = None ↔ obs = [].
Proof.
  split.
  - intros HNone. destruct obs as [|o obs]; [done|].
    destruct (consolidate_item_total view_name (o :: obs)) as [v Hv]; [done|].
    congruence.
  - intros ->. reflexivity.
Qed.

Lemma consolidate_loop_None items acc :
  consolidate_loop items acc = None ↔ ∃ k, (k, []) ∈ items.
Proof.
  revert acc. induction items as [|[n obs] items IH]; intros acc; simpl.
  - split; [done | intros [k Hk]; by apply not_elem_of_nil in Hk].
  - destruct (consolidate_item n obs) as [u|] eqn:Hu; simpl.
    + rewrite IH. split; intros [k Hk].
      * exists k. by apply list_elem_of_further.
      * apply elem_of_cons in Hk as [[= -> <-]|Hk]; [|by exists k].
        by rewrite (proj2 (consolidate_item_None n [])) in Hu.
    + apply consolidate_item_None in Hu as ->. split; [intros _|done].
      exists n. apply list_elem_of_here.
Qed.

(** [consolidate] raises exactly on a registry that holds an empty list
    under some name (the [max] of an empty sequence); on every other
    registry it returns a mapping. *)
Theorem consolidate_fails_iff_empty_list (self : ViewConsolidator) :
  (consolidate self = None ↔ ∃ k, (k, []) ∈ view_registry self) ∧
  (is_Some (consolidate self) ↔ ∀ k obs, (k, obs) ∈ view_registry self → obs ≠ []).
Proof.
  unfold consolidate.
  pose proof (consolidate_loop_None (view_registry self) []) as HN.
  split; [exact HN|].
  split.
  - intros [uv Huv] k obs Hk ->.
    assert (consolidate_loop (view_registry self) [] = None) as E
      by (apply HN; by exists k).
    congruence.
  - intros Hall. destruct (consolidate_loop (view_registry self) []) eqn:E; [by eexists|].
    apply consolidate_loop_None in E as [k Hk]. by destruct (Hall k [] Hk).
Qed.

(** ** Keys and their order *)

Section KeyOrder.
Variable md5_json : KeyElements → string.

Lemma register_view_keys self m d s :
  dict_keys (view_registry (register_view md5_json self m d s)) =
  if bool_decide (m ∈ dict_keys (view_registry self))
  then dict_keys (view_registry self)
  else dict_keys (view_registry self) ++ [m].
Proof.
  unfold register_view; simpl. set (reg := view_registry self).
  rewrite dict_keys_set.
  destruct (dict_mem m reg) eqn:Hmem; simpl.
  - rewrite Hmem. rewrite bool_decide_eq_true_2; [done|].
    destruct (decide (m ∈ dict_keys reg)) as [|Hn]; [done|].
    apply dict_mem_false in Hn. congruence.
  - assert (dict_mem m (dict_set m [] reg) = true) as ->
      by (unfold dict_mem; by rewrite dict_get_set_eq).
    rewrite dict_keys_set, Hmem.
    rewrite bool_decide_eq_false_2; [done|]. by apply dict_mem_false.
Qed.

Lemma first_occurrences_snoc l x :
  first_occurrences (l ++ [x]) =
  if bool_decide (x ∈ first_occurrences l)
  then first_occurrences l else first_occurrences l ++ [x].
Proof. unfold first_occurrences. by rewrite foldl_snoc. Qed.

Lemma registry_keys calls :
  dict_keys (view_registry (register_all md5_json calls)) =
  first_occurrences (rc_name <$> calls).
Proof.
  induction calls as [|c calls IH] using rev_ind; [done|].
  rewrite register_all_snoc, fmap_app.
  change (rc_name <$> [c]) with [rc_name c]. rewrite first_occurrences_snoc.
  unfold register_call. rewrite register_view_keys, IH. done.
Qed.

Lemma observations_nonempty_iff n calls :
  observations md5_json n calls ≠ [] ↔ n ∈ rc_name <$> calls.
Proof.
  unfold observations. rewrite list_elem_of_fmap. split.
  - intros Hne. destruct (filter (λ c, rc_name c = n) calls) as [|c l] eqn:E; [done|].
    assert (c ∈ filter (λ c, rc_name c = n) calls) as Hc
      by (rewrite E; apply list_elem_of_here).
    apply list_elem_of_filter in Hc as [Hn Hc]. by exists c.
  - intros (c & -> & Hc) Hnil. apply fmap_nil_inv in Hnil.
    assert (c ∈ filter (λ c', rc_name c' = rc_name c) calls) as Hin
      by by apply list_elem_of_filter.
    rewrite Hnil in Hin. by apply not_elem_of_nil in Hin.
Qed.

(** The mapping [consolidate] returns has one key per registered name,
    without repetition, in the order in which the names were first
    registered: the order in which the emitter later walks the views. *)
Theorem unified_views_in_first_registration_order (calls : list RegisterCall) :
  ∃ uv,
    consolidate (register_all md5_json calls) = Some uv ∧
    dict_keys uv = first_occurrences (rc_name <$> calls) ∧
    NoDup (dict_keys uv) ∧
    (∀ n, n ∈ dict_keys uv ↔ n ∈ rc_name <$> calls).
Proof.
  destruct (consolidate_loop_spec
              (view_registry (register_all md5_json calls)) [])
    as (uv & Huv & _).
  { apply registry_NoDup. }
  { intros k obs. apply registry_nonempty. }
  exists uv. split; [done|].
  assert (dict_keys uv = dict_keys (view_registry (register_all md5_json calls))) as E
    by by apply consolidate_keys.
  rewrite E. split_and!.
  - apply registry_keys.
  - apply registry_NoDup.
  - intros n. rewrite <- observations_nonempty_iff.
    pose proof (registry_lookup md5_json calls n) as Hl.
    destruct (decide (n ∈ dict_keys (view_registry (register_all md5_json calls))))
      as [Hin|Hnin].
    + split; [|done]. intros _ Hnil. rewrite Hnil in Hl.
      by apply dict_get_None in Hl.
    + split; [done|]. intros Hne. exfalso. apply Hnin.
      destruct (observations md5_json n calls) eqn:E'; [done|].
      destruct (decide (n ∈ dict_keys (view_registry (register_all md5_json calls))))
        as [|Hn']; [done|].
      apply dict_get_None in Hn'. congruence.
Qed.
End KeyOrder.

(** ** Every consolidated view *)

Section ViewFacts.
Variable md5_json : KeyElements → string.

(** For every registered name the view under that name carries the name
    itself and, as source workbooks, the source of every registration
    under the name, in call order and with repetitions kept. *)
Theorem source_workbooks_in_registration_order
    (calls : list RegisterCall) (view_name : string) :
  view_name ∈ rc_name <$> calls →
  ∃ uv view,
    consolidate (register_all md5_json calls) = Some uv ∧
    dict_get view_name uv = Some view ∧
    name view = view_name ∧
    source_workbooks view
      = rc_source <$> filter (λ c, rc_name c = view_name) calls.
Proof.
  intros Hin. apply observations_nonempty_iff with (md5_json := md5_json) in Hin.
  destruct (consolidate_registered md5_json calls view_name Hin) as (uv & Huv & Hget).
  assert (source <$> observations md5_json view_name calls
          = rc_source <$> filter (λ c, rc_name c = view_name) calls) as Hsrc.
  { unfold observations. rewrite <- list_fmap_compose. done. }
  destruct (consolidate_item_cases view_name _ Hin)
    as [(o & Ho & Hv)|[(_ & _ & first & _ & Hv)|(_ & _ & i & best & v & vs & _ & _ & Hv)]];
    eexists uv, _; rewrite Hget, Hv; split_and!; try done; simpl.
  rewrite <- Hsrc, Ho. done.
Qed.

(** For every registered name the canonical definition is the record of
    one of the observations registered under it, and the variations are,
    in call order, exactly the observations whose fingerprint differs from
    that observation's, each with its difference against the canonical
    record; so there are always fewer variations than observations. *)
Theorem variations_are_the_differing_observations
    (calls : list RegisterCall) (view_name : string) :
  view_name ∈ rc_name <$> calls →
  ∃ uv view i best,
    consolidate (register_all md5_json calls) = Some uv ∧
    dict_get view_name uv = Some view ∧
    observations md5_json view_name calls !! i = Some best ∧
    canonical_definition view = Some (definition best) ∧
    variations view
      = variation_against best
          <$> filter (λ d, hash d ≠ hash best) (observations md5_json view_name calls) ∧
    length (variations view) < length (observations md5_json view_name calls).
Proof.
  intros Hin. apply observations_nonempty_iff with (md5_json := md5_json) in Hin.
  destruct (consolidate_registered md5_json calls view_name Hin) as (uv & Huv & Hget).
  assert (∀ (best : RegistryEntry) obs i,
            obs !! i = Some best →
            length (variation_against best <$> filter (λ d, hash d ≠ hash best) obs)
            < length obs) as Hfewer.
  { intros best obs i Hi. rewrite length_fmap.
    apply list_elem_of_lookup_2, list_elem_of_split in Hi as (l1 & l2 & ->).
    rewrite filter_app, filter_cons, !length_app. simpl.
    case_decide; [done|].
    pose proof (length_filter (λ d, hash d ≠ hash best) l1).
    pose proof (length_filter (λ d, hash d ≠ hash best) l2). lia. }
  destruct (consolidate_item_cases view_name _ Hin)
    as [(o & Ho & Hv)|[(_ & Hall & first & Hfirst & Hv)
                      |(_ & _ & i & best & v & vs & Hi & Hvs & Hv)]].
  - eexists uv, _, 0, o. rewrite Hget, Hv, Ho.
    split_and!; try done; simpl.
    + rewrite filter_cons. by case_decide.
    + lia.
  - eexists uv, _, 0, first. rewrite Hget, Hv.
    assert (filter (λ d, hash d ≠ hash first) (observations md5_json view_name calls)
            = []) as Hnil.
    { apply filter_differing_nil. intros o Ho. apply Hall; [done|].
      by eapply list_elem_of_lookup_2. }
    split_and!; try done; simpl.
    + by rewrite Hnil.
    + destruct (observations md5_json view_name calls); [done | simpl; lia].
  - eexists uv, _, i, best. rewrite Hget, Hv.
    split_and!; try done; cbn [variations]. rewrite <- Hvs. by eapply Hfewer.
Qed.

(** The three merge strategies, read back: a view is labelled
    ["most_complete"] exactly when its name was registered once,
    ["identical"] exactly when it was registered at least twice with one
    fingerprint throughout, and ["manual_review"] exactly when two of its
    observations differ in fingerprint, which is also exactly when it has
    variations. *)
Theorem merge_strategy_classification
    (calls : list RegisterCall) (view_name : string) :
  view_name ∈ rc_name <$> calls →
  ∃ uv view,
    consolidate (register_all md5_json calls) = Some uv ∧
    dict_get view_name uv = Some view ∧
    (merge_strategy view = "most_complete" ↔
       length (observations md5_json view_name calls) = 1) ∧
    (merge_strategy view = "identical" ↔
       2 ≤ length (observations md5_json view_name calls) ∧
       ∀ o o', o ∈ observations md5_json view_name calls →
               o' ∈ observations md5_json view_name calls → hash o = hash o') ∧
    (merge_strategy view = "manual_review" ↔
       ∃ i j o o', observations md5_json view_name calls !! i = Some o ∧
                   observations md5_json view_name calls !! j = Some o' ∧
                   hash o ≠ hash o') ∧
    (merge_strategy view = "manual_review" ↔ variations view ≠ []).
Proof.
  intros Hin. apply observations_nonempty_iff with (md5_json := md5_json) in Hin.
  destruct (consolidate_registered md5_json calls view_name Hin) as (uv & Huv & Hget).
  revert Hin Hget. generalize (observations md5_json view_name calls) as obs.
  intros obs Hin Hget.
  assert (∀ i j (o o' : RegistryEntry),
            obs !! i = Some o → obs !! j = Some o' → hash o ≠ hash o' →
            (∀ a b, a ∈ obs → b ∈ obs → hash a = hash b) → False) as Hclash.
  { intros i j o o' Hi Hj Hne Hall. apply Hne, Hall; by eapply list_elem_of_lookup_2. }
  destruct (consolidate_item_cases view_name obs Hin)
    as [(o & -> & Hv)|[(Hlen & Hall & first & _ & Hv)
                      |(Hlen & Hdiff & i & best & v & vs & _ & _ & Hv)]];
    eexists uv, _; rewrite Hget, Hv; simpl;
    (split; [done|]); (split; [reflexivity|]).
  - split_and!; split; try done; try discriminate.
    + intros [Hlen _]. simpl in Hlen. lia.
    + intros (i & j & a & b & Hi & Hj & Hne).
      destruct i as [|i], j as [|j]; simpl in *; try done. congruence.
  - split_and!; split; try done; try discriminate.
    + intros E. lia.
    + intros (i & j & a & b & Hi & Hj & Hne). exfalso. eauto.
  - split_and!; split; try done; try discriminate.
    + intros E. lia.
    + intros [_ Hall]. exfalso.
      destruct Hdiff as (a & b & oa & ob & Ha & Hb & Hne). eauto.
Qed.
End ViewFacts.

Lemma source_workbooks_in_registration_order_witness :
  ∃ uv view,
    consolidate (register_all toy_digest scenario_calls) = Some uv ∧
    dict_get "Sales" uv = Some view ∧
    name view = "Sales" ∧
    source_workbooks view
      = rc_source <$> filter (λ c, rc_name c = "Sales") scenario_calls.
Proof.
  apply (source_workbooks_in_registration_order toy_digest scenario_calls "Sales").
  apply list_elem_of_here.
Defined.

Lemma variations_are_the_differing_observations_witness :
  ∃ uv view i best,
    consolidate (register_all toy_digest scenario_calls) = Some uv ∧
    dict_get "Sales" uv = Some view ∧
    observations toy_digest "Sales" scenario_calls !! i = Some best ∧
    canonical_definition view = Some (definition best) ∧
    variations view
      = variation_against best
          <$> filter (λ d, hash d ≠ hash best)
                     (observations toy_digest "Sales" scenario_calls) ∧
    length (variations view) < length (observations toy_digest "Sales" scenario_calls).
Proof.
  apply (variations_are_the_differing_observations toy_digest scenario_calls "Sales").
  apply list_elem_of_here.
Defined.

Lemma merge_strategy_classification_witness :
  ∃ uv view,
    consolidate (register_all toy_digest scenario_calls) = Some uv ∧
    dict_get "Returns" uv = Some view ∧
    (merge_strategy view = "most_complete" ↔
       length (observations toy_digest "Returns" scenario_calls) = 1) ∧
    (merge_strategy view = "identical" ↔
       2 ≤ length (observations toy_digest "Returns" scenario_calls) ∧
       ∀ o o', o ∈ observations toy_digest "Returns" scenario_calls →
               o' ∈ observations toy_digest "Returns" scenario_calls →
               hash o = hash o') ∧
    (merge_strategy view = "manual_review" ↔
       ∃ i j o o', observations toy_digest "Returns" scenario_calls !! i = Some o ∧
                   observations toy_digest "Returns" scenario_calls !! j = Some o' ∧
                   hash o ≠ hash o') ∧
    (merge_strategy view = "manual_review" ↔ variations view ≠ []).
Proof.
  apply (merge_strategy_classification toy_digest scenario_calls "Returns").
  do 6 apply list_elem_of_further. apply list_elem_of_here.
Defined.

(** ** The registry as an append-only multimap *)

Section RegistryAppend.
Variable md5_json : KeyElements → string.

(** One [register_view] call, from any state: the list under the name
    grows by exactly one entry at its end (starting from the empty list
    for a new name), carrying the definition, the source and the
    fingerprint of the definition; every other name keeps its list; and
    the keys keep their order, a new name going last. *)
Theorem register_view_appends (self : ViewConsolidator) (view_name : string)
    (view_definition : ViewDefinition) (workbook_source : string) :
  let after := register_view md5_json self view_name view_definition workbook_source in
  (∀ n, dict_get n (view_registry after)
        = if decide (n = view_name)
          then Some (default [] (dict_get view_name (view_registry self)) ++
                     [ {| definition := view_definition;
                          source := workbook_source;
                          hash := _hash_definition md5_json view_definition |} ])
          else dict_get n (view_registry self)) ∧
  dict_keys (view_registry after)
    = (if bool_decide (view_name ∈ dict_keys (view_registry self))
       then dict_keys (view_registry self)
       else dict_keys (view_registry self) ++ [view_name]).
Proof.
  intros after. unfold after. split.
  - intros n. apply register_view_lookup.
  - apply register_view_keys.
Qed.

(** After any sequence of registrations on a fresh consolidator, the
    registry holds under each registered name exactly the observations
    registered under it, one per call and in call order, and has no key
    for any other name. *)
Theorem registry_holds_observations (calls : list RegisterCall) (view_name : string) :
  dict_get view_name (view_registry (register_all md5_json calls))
    = (if bool_decide (view_name ∈ rc_name <$> calls)
       then Some (observations md5_json view_name calls)
       else None) ∧
  (definition <$> observations md5_json view_name calls
    = rc_definition <$> filter (λ c, rc_name c = view_name) calls) ∧
  (source <$> observations md5_json view_name calls
    = rc_source <$> filter (λ c, rc_name c = view_name) calls) ∧
  (hash <$> observations md5_json view_name calls
    = (λ c, _hash_definition md5_json (rc_definition c))
        <$> filter (λ c, rc_name c = view_name) calls).
Proof.
  rewrite registry_lookup. split_and!.
  - case_bool_decide as Hin.
    + apply (observations_nonempty_iff md5_json) in Hin.
      by destruct (observations md5_json view_name calls).
    + destruct (observations md5_json view_name calls) eqn:E; [done|].
      exfalso. apply Hin, (observations_nonempty_iff md5_json). by rewrite E.
  - unfold observations. by rewrite <- list_fmap_compose.
  - unfold observations. by rewrite <- list_fmap_compose.
  - unfold observations. by rewrite <- list_fmap_compose.
Qed.
End RegistryAppend.

(** ** Fingerprints *)

Lemma insert_sorted_Permutation x l : PyStr.insert_sorted x l ≡ₚ x :: l.
Proof.
  induction l as [|y l IH]; simpl; [done|].
  destruct (String.leb x y); [done|]. rewrite IH. apply Permutation_swap.
Qed.

Lemma sorted_Permutation l : PyStr.sorted l ≡ₚ l.
Proof.
  induction l as [|x l IH]; simpl; [done|].
  unfold PyStr.sorted in *. simpl. by rewrite insert_sorted_Permutation, IH.
Qed.

Lemma insert_sorted_Sorted x l :
  Sorted String.le l → Sorted String.le (PyStr.insert_sorted x l).
Proof.
  induction l as [|y l IH]; intros Hs; simpl.
  - repeat constructor.
  - destruct (String.leb x y) eqn:E.
    + constructor; [done|]. constructor. unfold String.le. by rewrite E.
    + apply Sorted_inv in Hs as [Hs Hhd]. constructor; [by apply IH|].
      assert (String.le y x) as Hyx.
      { destruct (total String.le x y) as [H|H]; [|done].
        unfold String.le in H. by rewrite E in H. }
      destruct l as [|z l]; simpl.
      * by constructor.
      * destruct (String.leb x z); constructor; [done|].
        by apply HdRel_inv in Hhd.
Qed.

Lemma sorted_Sorted l : Sorted String.le (PyStr.sorted l).
Proof.
  induction l as [|x l IH]; [constructor|].
  unfold PyStr.sorted in *. simpl. by apply insert_sorted_Sorted.
Qed.

Lemma sorted_Permutation_eq l1 l2 : l1 ≡ₚ l2 → PyStr.sorted l1 = PyStr.sorted l2.
Proof.
  intros Hp. apply (Sorted_unique String.le); [apply sorted_Sorted..|].
  by rewrite !sorted_Permutation.
Qed.

(** The fingerprint reads the table, the column names and the
    calculated-field names, each list as a multiset: two definitions with
    the same table and the same names in any order have the same
    fingerprint, whatever their datatypes, roles, formulas, database,
    schema, custom SQL or display name. *)
Theorem fingerprint_ignores_order_and_types
    (md5_json : KeyElements → string) (d1 d2 : ViewDefinition) :
  def_table d1 = def_table d2 →
  col_name <$> get_columns d1 ≡ₚ col_name <$> get_columns d2 →
  cf_name <$> get_calculated_fields d1 ≡ₚ cf_name <$> get_calculated_fields d2 →
  _hash_definition md5_json d1 = _hash_definition md5_json d2.
Proof.
  intros Ht Hc Hf. unfold _hash_definition.
  by rewrite Ht, (sorted_Permutation_eq _ _ Hc), (sorted_Permutation_eq _ _ Hf).
Qed.

Lemma fingerprint_ignores_order_and_types_witness :
  _hash_definition toy_digest orders_as_exported
  = _hash_definition toy_digest orders_retyped.
Proof.
  apply (fingerprint_ignores_order_and_types toy_digest
           orders_as_exported orders_retyped).
  - reflexivity.
  - apply Permutation_swap.
  - reflexivity.
Defined.

(** ** More on the structural difference *)

(** The four lists of a difference hold no name twice, no column name
    appears on both sides, and no calculated-field name appears on both
    sides, however often a name occurs in either record. *)
Theorem difference_lists_are_disjoint (A B : ViewDefinition) :
  let d := _compute_difference A B in
  NoDup (columns_only_in_def1 d) ∧ NoDup (columns_only_in_def2 d) ∧
  NoDup (calc_fields_only_in_def1 d) ∧ NoDup (calc_fields_only_in_def2 d) ∧
  (∀ x, ¬ (x ∈ columns_only_in_def1 d ∧ x ∈ columns_only_in_def2 d)) ∧
  (∀ x, ¬ (x ∈ calc_fields_only_in_def1 d ∧ x ∈ calc_fields_only_in_def2 d)).
Proof.
  simpl. split_and!; try apply NoDup_elements.
  - intros x. rewrite !elem_of_elements, !elem_of_difference. tauto.
  - intros x. rewrite !elem_of_elements, !elem_of_difference. tauto.
Qed.

(** Both column lists of a difference are empty exactly when the two
    records have the same set of column names, and both calculated-field
    lists are empty exactly when they have the same set of
    calculated-field names: tables, datatypes, roles, formulas, order and
    repetitions never show in a difference.  In particular a record has
    an empty difference against itself. *)
Theorem difference_empty_iff_same_names (A B : ViewDefinition) :
  (columns_only_in_def1 (_compute_difference A B) = [] ∧
   columns_only_in_def2 (_compute_difference A B) = []
   ↔ ∀ x, x ∈ col_name <$> get_columns A ↔ x ∈ col_name <$> get_columns B) ∧
  (calc_fields_only_in_def1 (_compute_difference A B) = [] ∧
   calc_fields_only_in_def2 (_compute_difference A B) = []
   ↔ ∀ x, x ∈ cf_name <$> get_calculated_fields A
          ↔ x ∈ cf_name <$> get_calculated_fields B) ∧
  _compute_difference A A =
    {| columns_only_in_def1 := []; columns_only_in_def2 := [];
       calc_fields_only_in_def1 := []; calc_fields_only_in_def2 := [] |}.
Proof.
  assert (∀ l1 l2 : list string,
            elements ((list_to_set l1 : gset string) ∖ list_to_set l2) = [] ∧
            elements ((list_to_set l2 : gset string) ∖ list_to_set l1) = []
            ↔ ∀ x, x ∈ l1 ↔ x ∈ l2) as Hsets.
  { intros l1 l2. rewrite !elements_empty_iff. split.
    - intros [H1 H2] x. rewrite <- !(elem_of_list_to_set (C := gset string)).
      split; intros Hx.
      + destruct (decide (x ∈ (list_to_set l2 : gset string))) as [|Hn]; [done|].
        exfalso. apply (not_elem_of_empty (C := gset string) x).
        rewrite <- H1. by apply elem_of_difference.
      + destruct (decide (x ∈ (list_to_set l1 : gset string))) as [|Hn]; [done|].
        exfalso. apply (not_elem_of_empty (C := gset string) x).
        rewrite <- H2. by apply elem_of_difference.
    - intros Hx. split; intros x; rewrite elem_of_difference, !elem_of_list_to_set;
        (split; [|by intros ?%not_elem_of_empty]); intros [Hin Hnin];
        exfalso; apply Hnin, Hx, Hin. }
  split_and!; [apply Hsets | apply Hsets |].
  unfold _compute_difference. rewrite !difference_diag_L, elements_empty. done.
Qed.

(** ** Stripping and collapsing runs of a character class *)

Section StripRuns.
Variables (p : ascii → bool) (r : ascii).
Hypothesis p_r : p r = true.

Local Abbreviation runs := (PyStr.re_sub_runs p r).
Local Abbreviation lstrip := (PyStr.lstrip p).
Local Abbreviation rstrip := (PyStr.rstrip p).

Lemma lstrip_head s :
  lstrip s = EmptyString ∨ ∃ c t, lstrip s = String c t ∧ p c = false.
Proof.
  induction s as [|c s IH]; simpl; [by left|].
  destruct (p c) eqn:E; [done|]. right. by exists c, s.
Qed.

Lemma lstrip_fixed_head s :
  lstrip s = s ↔ s = EmptyString ∨ ∃ c t, s = String c t ∧ p c = false.
Proof.
  split.
  - intros <-. apply lstrip_head.
  - intros [->|(c & t & -> & Hc)]; simpl; [done | by rewrite Hc].
Qed.

Lemma lstrip_length s : String.length (lstrip s) ≤ String.length s.
Proof. induction s as [|c s IH]; simpl; [lia|]. destruct (p c); simpl; lia. Qed.

Lemma lstrip_idem s : lstrip (lstrip s) = lstrip s.
Proof. apply lstrip_fixed_head, lstrip_head. Qed.

Lemma runs_eq c s :
  runs (String c s) =
  if p c then
    match s with
    | EmptyString => String r EmptyString
    | String c' _ => if p c' then runs s else String r (runs s)
    end
  else String c (runs s).
Proof. reflexivity. Qed.

Lemma runs_other c s : p c = false → runs (String c s) = String c (runs s).
Proof. intros Hc. by rewrite runs_eq, Hc. Qed.

Lemma runs_class_class c c' s :
  p c = true → p c' = true → runs (String c (String c' s)) = runs (String c' s).
Proof. intros Hc Hc'. by rewrite runs_eq, Hc, Hc'. Qed.

Lemma runs_class_other c c' s :
  p c = true → p c' = false →
  runs (String c (String c' s)) = String r (runs (String c' s)).
Proof. intros Hc Hc'. by rewrite runs_eq, Hc, Hc'. Qed.

Lemma runs_class_end c : p c = true → runs (String c EmptyString) = String r EmptyString.
Proof. intros Hc. by rewrite runs_eq, Hc. Qed.

(** A run at the head becomes one replacement character, and the
    collapse goes on after the run. *)
Lemma runs_class c s : p c = true → runs (String c s) = String r (runs (lstrip s)).
Proof.
  revert c. induction s as [|c' s IH]; intros c Hc.
  - by rewrite runs_class_end.
  - cbn [PyStr.lstrip]. destruct (p c') eqn:Hc'.
    + rewrite runs_class_class by done. by apply IH.
    + by rewrite runs_class_other.
Qed.

Lemma lstrip_runs s : lstrip (runs s) = runs (lstrip s).
Proof.
  destruct s as [|c s]; [done|]. destruct (p c) eqn:Hc.
  - rewrite runs_class by done. cbn [PyStr.lstrip]. rewrite p_r, Hc.
    destruct (lstrip_head s) as [->|(c' & t & -> & Hc')]; [done|].
    rewrite runs_other by done. cbn [PyStr.lstrip]. by rewrite Hc'.
  - rewrite runs_other by done. cbn [PyStr.lstrip]. rewrite Hc.
    by rewrite runs_other.
Qed.

Lemma runs_idem_bounded n s : String.length s ≤ n → runs (runs s) = runs s.
Proof.
  revert s. induction n as [|n IH]; intros s Hn.
  - destruct s; [done | simpl in Hn; lia].
  - destruct s as [|c s]; [done|]. simpl in Hn. destruct (p c) eqn:Hc.
    + rewrite runs_class by done. rewrite (runs_class r) by done.
      rewrite lstrip_runs, lstrip_idem, IH; [done|].
      pose proof (lstrip_length s). lia.
    + rewrite !runs_other by done. rewrite IH; [done | lia].
Qed.

Lemma runs_idem s : runs (runs s) = runs s.
Proof. by apply (runs_idem_bounded (String.length s)). Qed.

Lemma rstrip_cons c s :
  rstrip (String c s) =
  match rstrip s with
  | EmptyString => if p c then EmptyString else String c EmptyString
  | String _ _ => String c (rstrip s)
  end.
Proof. simpl. by destruct (rstrip s). Qed.

Lemma rstrip_other c s : p c = false → rstrip (String c s) = String c (rstrip s).
Proof. intros Hc. rewrite rstrip_cons, Hc. by destruct (rstrip s). Qed.

Lemma rstrip_keeps_head c s :
  rstrip (String c s) = EmptyString ∨ rstrip (String c s) = String c (rstrip s).
Proof. rewrite rstrip_cons. destruct (rstrip s); destruct (p c); auto. Qed.

Lemma rstrip_idem s : rstrip (rstrip s) = rstrip s.
Proof.
  induction s as [|c s IH]; [done|]. rewrite rstrip_cons.
  destruct (rstrip s) as [|c' t] eqn:E.
  - destruct (p c) eqn:Hc; [done|]. simpl. by rewrite Hc.
  - rewrite rstrip_cons, IH. done.
Qed.

Lemma rstrip_runs s : rstrip (runs s) = runs (rstrip s).
Proof.
  induction s as [|c s IH]; [done|]. destruct (p c) eqn:Hc.
  - destruct s as [|c' s].
    + rewrite runs_class_end by done. simpl. by rewrite p_r, Hc.
    + destruct (p c') eqn:Hc'.
      * rewrite runs_class_class by done.
        rewrite IH. rewrite (rstrip_cons c).
        destruct (rstrip_keeps_head c' s) as [->| ->]; [by rewrite Hc|].
        by rewrite runs_class_class.
      * rewrite runs_class_other by done.
        rewrite (rstrip_cons r), IH, (rstrip_cons c).
        rewrite (rstrip_other c' s) by done.
        rewrite runs_other by done.
        by rewrite runs_class_other, runs_other.
  - rewrite runs_other by done. rewrite !rstrip_other by done.
    rewrite runs_other by done. by rewrite IH.
Qed.

Lemma lstrip_rstrip_fixed s : lstrip s = s → lstrip (rstrip s) = rstrip s.
Proof.
  intros [->|(c & t & -> & Hc)]%lstrip_fixed_head; [done|].
  rewrite rstrip_other by done. simpl. by rewrite Hc.
Qed.

Lemma strip_idem s : PyStr.strip p (PyStr.strip p s) = PyStr.strip p s.
Proof.
  unfold PyStr.strip.
  rewrite (lstrip_rstrip_fixed (lstrip s)) by apply lstrip_idem.
  apply rstrip_idem.
Qed.

Lemma strip_runs s : PyStr.strip p (runs s) = runs (PyStr.strip p s).
Proof. unfold PyStr.strip. by rewrite lstrip_runs, rstrip_runs. Qed.

Lemma strip_fixed s :
  PyStr.strip p s = s → lstrip s = s ∧ rstrip s = s.
Proof.
  unfold PyStr.strip. intros E.
  assert (lstrip s = s) as El.
  { rewrite <- E at 1. rewrite lstrip_rstrip_fixed by apply lstrip_idem. exact E. }
  split; [done|]. by rewrite El in E.
Qed.
End StripRuns.

(** A per-character map that respects the class commutes with
    stripping and with collapsing. *)
Section MapStripRuns.
Variables (f : ascii → ascii) (p : ascii → bool) (r : ascii).
Hypothesis p_f : ∀ c, p (f c) = p c.
Hypothesis f_r : f r = r.

Lemma smap_lstrip s :
  PyStr.smap f (PyStr.lstrip p s) = PyStr.lstrip p (PyStr.smap f s).
Proof.
  induction s as [|c s IH]; [done|]. cbn [PyStr.lstrip PyStr.smap].
  rewrite p_f. by destruct (p c).
Qed.

Lemma smap_rstrip s :
  PyStr.smap f (PyStr.rstrip p s) = PyStr.rstrip p (PyStr.smap f s).
Proof.
  induction s as [|c s IH]; [done|]. cbn [PyStr.smap].
  rewrite !rstrip_cons, <- IH, p_f.
  destruct (PyStr.rstrip p s); [by destruct (p c) | done].
Qed.

Lemma smap_strip s :
  PyStr.smap f (PyStr.strip p s) = PyStr.strip p (PyStr.smap f s).
Proof. unfold PyStr.strip. by rewrite smap_rstrip, smap_lstrip. Qed.

Lemma smap_runs s :
  PyStr.smap f (PyStr.re_sub_runs p r s) = PyStr.re_sub_runs p r (PyStr.smap f s).
Proof.
  induction s as [|c s IH]; [done|]. cbn [PyStr.smap].
  rewrite !runs_eq, p_f. destruct (p c) eqn:Hc.
  - destruct s as [|c' s]; cbn [PyStr.smap]; [by rewrite f_r|].
    rewrite p_f. destruct (p c'); [exact IH|].
    cbn [PyStr.smap]. by rewrite f_r, IH.
  - cbn [PyStr.smap]. by rewrite IH.
Qed.
End MapStripRuns.

Lemma smap_id_on (f : ascii → ascii) (q : ascii → bool) (s : string) :
  (∀ c, q c = true → f c = c) → PyStr.sforall q s = true → PyStr.smap f s = s.
Proof.
  intros Hf. induction s as [|c s IH]; simpl; [done|].
  intros [Hc Hs]%andb_prop. by rewrite Hf, IH.
Qed.

Lemma smap_smap (f g : ascii → ascii) (s : string) :
  PyStr.smap f (PyStr.smap g s) = PyStr.smap (λ c, f (g c)) s.
Proof. induction s as [|c s IH]; simpl; [done|]. by rewrite IH. Qed.

Lemma smap_ext (f g : ascii → ascii) (s : string) :
  (∀ c, f c = g c) → PyStr.smap f s = PyStr.smap g s.
Proof. intros H. induction s as [|c s IH]; simpl; [done|]. by rewrite H, IH. Qed.

Lemma lower_char_idem c : PyStr.lower_char (PyStr.lower_char c) = PyStr.lower_char c.
Proof. destruct c as [[] [] [] [] [] [] [] []]; reflexivity. Qed.

Lemma is_space_lower_char c : PyStr.is_space (PyStr.lower_char c) = PyStr.is_space c.
Proof. destruct c as [[] [] [] [] [] [] [] []]; reflexivity. Qed.

Lemma lower_idem s : PyStr.lower (PyStr.lower s) = PyStr.lower s.
Proof.
  unfold PyStr.lower. rewrite smap_smap. apply smap_ext, lower_char_idem.
Qed.

(** ** CalculatedFieldConsolidator *)

Lemma normalize_formula_lower s :
  normalize_formula (PyStr.lower s) = normalize_formula s.
Proof. unfold normalize_formula. by rewrite lower_idem. Qed.

Lemma lower_normalize_formula s :
  PyStr.lower (normalize_formula s) = normalize_formula s.
Proof.
  unfold normalize_formula, PyStr.lower.
  rewrite (smap_runs PyStr.lower_char PyStr.is_space " "%char is_space_lower_char eq_refl).
  rewrite (smap_strip PyStr.lower_char PyStr.is_space is_space_lower_char).
  fold (PyStr.lower s). fold (PyStr.lower (PyStr.lower s)). by rewrite lower_idem.
Qed.

(** The normalised text [register_field] stores is a normal form: it
    is unchanged by lower-casing, by stripping whitespace at the ends and
    by collapsing runs of whitespace, so normalising it again returns it;
    and it ignores exactly those differences in the formula, which may be
    lower-cased, stripped or have its whitespace collapsed beforehand
    without changing the result. *)
Theorem normalize_formula_is_normal_form (formula : string) :
  PyStr.sforall PyStr.is_ascii formula = true →
  let n := normalize_formula formula in
  PyStr.lower n = n ∧
  PyStr.strip PyStr.is_space n = n ∧
  PyStr.re_sub_runs PyStr.is_space " " n = n ∧
  normalize_formula n = n ∧
  normalize_formula (PyStr.lower formula) = n ∧
  normalize_formula (PyStr.strip PyStr.is_space formula) = n ∧
  normalize_formula (PyStr.re_sub_runs PyStr.is_space " " formula) = n.
Proof.
  intros _ n.
  assert (PyStr.strip PyStr.is_space n = n) as Hstrip.
  { unfold n, normalize_formula.
    rewrite (strip_runs PyStr.is_space " "%char eq_refl), strip_idem; done. }
  assert (PyStr.re_sub_runs PyStr.is_space " " n = n) as Hruns.
  { unfold n, normalize_formula. by apply (runs_idem PyStr.is_space " "%char eq_refl). }
  assert (PyStr.lower n = n) as Hlow by apply lower_normalize_formula.
  split_and!; try done.
  - unfold normalize_formula at 1. by rewrite Hlow, Hstrip, Hruns.
  - apply normalize_formula_lower.
  - unfold n, normalize_formula, PyStr.lower.
    by rewrite (smap_strip PyStr.lower_char PyStr.is_space is_space_lower_char), strip_idem.
  - unfold n, normalize_formula, PyStr.lower.
    rewrite (smap_runs PyStr.lower_char PyStr.is_space " "%char is_space_lower_char eq_refl).
    by rewrite (strip_runs PyStr.is_space " "%char eq_refl), (runs_idem PyStr.is_space " "%char eq_refl).
Qed.

Lemma normalize_formula_is_normal_form_witness :
  let n := normalize_formula "  SUM( [Profit] )   /  2 " in
  PyStr.lower n = n ∧
  PyStr.strip PyStr.is_space n = n ∧
  PyStr.re_sub_runs PyStr.is_space " " n = n ∧
  normalize_formula n = n ∧
  normalize_formula (PyStr.lower "  SUM( [Profit] )   /  2 ") = n ∧
  normalize_formula (PyStr.strip PyStr.is_space "  SUM( [Profit] )   /  2 ") = n ∧
  normalize_formula (PyStr.re_sub_runs PyStr.is_space " " "  SUM( [Profit] )   /  2 ") = n.
Proof.
  apply (normalize_formula_is_normal_form "  SUM( [Profit] )   /  2 ").
  reflexivity.
Defined.






(** ** More on name sanitising *)

Lemma sforall_smap (q : ascii → bool) (g : ascii → ascii) (s : string) :
  PyStr.sforall q (PyStr.smap g s) = PyStr.sforall (λ c, q (g c)) s.
Proof. induction s as [|c s IH]; simpl; [done|]. by rewrite IH. Qed.

Lemma sforall_sfilter_eq (q k : ascii → bool) (s : string) :
  PyStr.sforall q (PyStr.sfilter k s) = PyStr.sforall (λ c, negb (k c) || q c) s.
Proof.
  induction s as [|c s IH]; simpl; [done|].
  destruct (k c); simpl; by rewrite IH.
Qed.

Lemma sforall_ext (q q' : ascii → bool) (s : string) :
  (∀ c, q c = q' c) → PyStr.sforall q s = PyStr.sforall q' s.
Proof. intros H. induction s as [|c s IH]; simpl; [done|]. by rewrite H, IH. Qed.

Lemma sforall_impl (q q' : ascii → bool) (s : string) :
  (∀ c, q c = true → q' c = true) →
  PyStr.sforall q s = true → PyStr.sforall q' s = true.
Proof.
  intros H. induction s as [|c s IH]; simpl; [done|].
  intros [Hc Hs]%andb_prop. by rewrite (H c Hc), IH.
Qed.

Lemma sforall_and (q q' : ascii → bool) (s : string) :
  PyStr.sforall q s = true → PyStr.sforall q' s = true →
  PyStr.sforall (λ c, q c && q' c) s = true.
Proof.
  induction s as [|c s IH]; simpl; [done|].
  intros [Hc Hs]%andb_prop [Hc' Hs']%andb_prop. by rewrite Hc, Hc', IH.
Qed.

Section SforallStripRuns.
Variables (p : ascii → bool) (r : ascii) (q : ascii → bool).

Lemma sforall_lstrip s :
  PyStr.sforall q s = true → PyStr.sforall q (PyStr.lstrip p s) = true.
Proof.
  induction s as [|c s IH]; simpl; [done|].
  intros [Hc Hs]%andb_prop. destruct (p c); [by apply IH|].
  simpl. by rewrite Hc, Hs.
Qed.

Lemma sforall_rstrip s :
  PyStr.sforall q s = true → PyStr.sforall q (PyStr.rstrip p s) = true.
Proof.
  induction s as [|c s IH]; [done|]. cbn [PyStr.sforall].
  intros [Hc Hs]%andb_prop. rewrite rstrip_cons. specialize (IH Hs).
  destruct (PyStr.rstrip p s) as [|c' t].
  - destruct (p c); simpl; [done | by rewrite Hc].
  - cbn [PyStr.sforall] in *. by rewrite Hc, IH.
Qed.

Lemma sforall_strip s :
  PyStr.sforall q s = true → PyStr.sforall q (PyStr.strip p s) = true.
Proof. intros H. unfold PyStr.strip. by apply sforall_rstrip, sforall_lstrip. Qed.

Lemma sforall_runs s :
  q r = true →
  PyStr.sforall q s = true → PyStr.sforall q (PyStr.re_sub_runs p r s) = true.
Proof.
  intros Hr. induction s as [|c s IH]; [done|]. cbn [PyStr.sforall].
  intros [Hc Hs]%andb_prop. rewrite runs_eq. specialize (IH Hs).
  destruct (p c).
  - destruct s as [|c' s]; [simpl; by rewrite Hr|].
    destruct (p c'); [done|]. cbn [PyStr.sforall]. by rewrite Hr, IH.
  - cbn [PyStr.sforall]. by rewrite Hc, IH.
Qed.
End SforallStripRuns.

(** Stripping a class leaves the empty string exactly when every
    character is in the class. *)
Section StripEmpty.
Variables (p : ascii → bool) (r : ascii).
Hypothesis p_r : p r = true.

Lemma sforall_class_lstrip s :
  PyStr.sforall p (PyStr.lstrip p s) = PyStr.sforall p s.
Proof.
  induction s as [|c s IH]; simpl; [done|].
  destruct (p c) eqn:Hc; simpl; [done | by rewrite Hc].
Qed.

Lemma sforall_class_rstrip s :
  PyStr.sforall p (PyStr.rstrip p s) = PyStr.sforall p s.
Proof.
  induction s as [|c s IH]; [done|]. rewrite rstrip_cons. cbn [PyStr.sforall].
  rewrite <- IH. destruct (PyStr.rstrip p s) as [|c' t].
  - destruct (p c) eqn:Hc; simpl; [done | by rewrite Hc].
  - done.
Qed.

Lemma sforall_class_runs s :
  PyStr.sforall p (PyStr.re_sub_runs p r s) = PyStr.sforall p s.
Proof.
  induction s as [|c s IH]; [done|]. rewrite runs_eq. cbn [PyStr.sforall].
  destruct (p c) eqn:Hc; simpl.
  - destruct s as [|c' s]; [simpl; by rewrite p_r|].
    rewrite <- IH. destruct (p c') eqn:Hc'; [done|].
    cbn [PyStr.sforall]. by rewrite p_r.
  - by rewrite Hc.
Qed.

Lemma lstrip_all_class s :
  PyStr.sforall p s = true → PyStr.lstrip p s = EmptyString.
Proof.
  induction s as [|c s IH]; simpl; [done|].
  intros [Hc Hs]%andb_prop. rewrite Hc. by apply IH.
Qed.

Lemma strip_empty_iff s :
  PyStr.strip p s = EmptyString ↔ PyStr.sforall p s = true.
Proof.
  unfold PyStr.strip. split.
  - intros E. rewrite <- sforall_class_lstrip, <- sforall_class_rstrip. by rewrite E.
  - intros H. by rewrite lstrip_all_class.
Qed.
End StripEmpty.

(** A string fixed by right-stripping does not end in the class; a
    string fixed by collapsing has no two neighbours in the class. *)
Section FixedShapes.
Variables (p : ascii → bool) (r : ascii).
Hypothesis p_r : p r = true.

Lemma rstrip_fixed_last s c :
  PyStr.rstrip p s = s → last_char s = Some c → p c = false.
Proof.
  revert c. induction s as [|c0 s IH]; intros c; [done|].
  rewrite rstrip_cons. destruct (PyStr.rstrip p s) as [|c' t] eqn:E.
  - destruct (p c0) eqn:Hc0; [done|]. intros [= <-]. simpl. by intros [= <-].
  - intros [= Hs]. rewrite <- Hs. intros Hl. apply IH; [done|].
    by rewrite <- Hs in *.
Qed.

Lemma has_adjacent_cons c c' t :
  has_adjacent p (String c (String c' t))
  = (p c && p c') || has_adjacent p (String c' t).
Proof. reflexivity. Qed.

Lemma runs_fixed_no_adjacent s :
  PyStr.re_sub_runs p r s = s → has_adjacent p s = false.
Proof.
  induction s as [|c s IH]; [done|]. destruct (p c) eqn:Hc.
  - rewrite (runs_class p r) by done. intros [= Hr Hs].
    assert (PyStr.lstrip p s = s) as Hl.
    { rewrite <- Hs at 1. rewrite (lstrip_runs p r p_r), lstrip_idem. exact Hs. }
    assert (PyStr.re_sub_runs p r s = s) as Hfix.
    { rewrite <- Hs at 1. rewrite (runs_idem p r p_r). exact Hs. }
    specialize (IH Hfix).
    apply lstrip_fixed_head in Hl as [->|(c' & t & -> & Hc')]; [done|].
    by rewrite has_adjacent_cons, Hc, Hc', IH.
  - rewrite runs_other by done. intros [= Hs]. specialize (IH Hs).
    destruct s as [|c' t]; [done|].
    by rewrite has_adjacent_cons, Hc, IH.
Qed.
End FixedShapes.

Lemma sfilter_id (k : ascii → bool) (s : string) :
  PyStr.sforall k s = true → PyStr.sfilter k s = s.
Proof.
  induction s as [|c s IH]; simpl; [done|].
  intros [Hc Hs]%andb_prop. by rewrite Hc, IH.
Qed.

Lemma sanitize_char_identifier (c : ascii) :
  negb (PyStr.is_space c) || Ascii.eqb c " " = true →
  negb (PyStr.is_word c || PyStr.is_space c)
  || is_identifier_char
       (if Ascii.eqb (PyStr.lower_char c) " " then "_"%char else PyStr.lower_char c)
  = true.
Proof.
  destruct c as [[] [] [] [] [] [] [] []]; vm_compute; intros H;
    first [reflexivity | discriminate H].
Qed.

Lemma sanitize_char_stable (c : ascii) :
  negb (PyStr.is_word c || PyStr.is_space c)
  || is_sanitized_char
       (if Ascii.eqb (PyStr.lower_char c) " " then "_"%char else PyStr.lower_char c)
  = true.
Proof. destruct c as [[] [] [] [] [] [] [] []]; reflexivity. Qed.

Lemma sanitize_char_vanishes (c : ascii) :
  negb (PyStr.is_word c || PyStr.is_space c)
  || PyStr.is_char "_"
       (if Ascii.eqb (PyStr.lower_char c) " " then "_"%char else PyStr.lower_char c)
  = negb (is_alnum c) && negb (is_other_space c).
Proof. destruct c as [[] [] [] [] [] [] [] []]; reflexivity. Qed.

Lemma is_sanitized_char_fixed (c : ascii) :
  is_sanitized_char c = true →
  (PyStr.is_word c || PyStr.is_space c) = true ∧
  PyStr.lower_char c = c ∧
  (if Ascii.eqb c " " then "_"%char else c) = c.
Proof.
  unfold is_sanitized_char. intros [[Hk Hl]%andb_prop Hs]%andb_prop.
  apply Ascii.eqb_eq in Hl. apply negb_true_iff in Hs.
  by rewrite Hs.
Qed.

(** The text [_sanitize_name] strips and collapses, as a per-character
    image of the name. *)
Lemma sanitize_body_sforall (q : ascii → bool) (view_name : string) :
  PyStr.sforall q
    (PyStr.replace_char " " "_"
       (PyStr.lower
          (PyStr.re_delete_outside (λ c, PyStr.is_word c || PyStr.is_space c) view_name)))
  = PyStr.sforall
      (λ c, negb (PyStr.is_word c || PyStr.is_space c)
            || q (if Ascii.eqb (PyStr.lower_char c) " " then "_"%char
                  else PyStr.lower_char c))
      view_name.
Proof.
  unfold PyStr.replace_char, PyStr.lower, PyStr.re_delete_outside.
  by rewrite !sforall_smap, sforall_sfilter_eq.
Qed.

Lemma sanitize_name_fixed_points (view_name : string) :
  PyStr.strip (PyStr.is_char "_") (_sanitize_name view_name) = _sanitize_name view_name ∧
  PyStr.re_sub_runs (PyStr.is_char "_") "_" (_sanitize_name view_name)
    = _sanitize_name view_name.
Proof.
  unfold _sanitize_name. split.
  - apply strip_idem.
  - rewrite <- (strip_runs (PyStr.is_char "_") "_"%char eq_refl).
    by rewrite (runs_idem (PyStr.is_char "_") "_"%char eq_refl).
Qed.

(** On an ASCII name whose only whitespace is the space, the sanitised
    name consists of lower-case letters, digits and underscores, does
    not begin or end with an underscore, and has no two underscores in a
    row (it may be empty). *)
Theorem sanitize_name_shape (view_name : string) :
  PyStr.sforall PyStr.is_ascii view_name = true →
  PyStr.sforall (λ c, negb (PyStr.is_space c) || Ascii.eqb c " ") view_name = true →
  PyStr.sforall is_identifier_char (_sanitize_name view_name) = true ∧
  first_char (_sanitize_name view_name) ≠ Some "_"%char ∧
  last_char (_sanitize_name view_name) ≠ Some "_"%char ∧
  has_adjacent (PyStr.is_char "_") (_sanitize_name view_name) = false.
Proof.
  intros _ Hsp.
  destruct (sanitize_name_fixed_points view_name) as [Hstrip Hruns].
  apply strip_fixed in Hstrip as [Hl Hr].
  split_and!.
  - unfold _sanitize_name. apply sforall_strip, sforall_runs; [done|].
    rewrite sanitize_body_sforall.
    revert Hsp. apply sforall_impl, sanitize_char_identifier.
  - apply lstrip_fixed_head in Hl as [->|(c & t & -> & Hc)]; [done|].
    simpl. intros [= ->]. done.
  - intros Hlast. by apply (rstrip_fixed_last _ _ _ Hr) in Hlast.
  - by apply (runs_fixed_no_adjacent (PyStr.is_char "_") "_"%char eq_refl).
Qed.

Lemma sanitize_name_shape_witness :
  PyStr.sforall is_identifier_char (_sanitize_name "Top Rising Terms!") = true ∧
  first_char (_sanitize_name "Top Rising Terms!") ≠ Some "_"%char ∧
  last_char (_sanitize_name "Top Rising Terms!") ≠ Some "_"%char ∧
  has_adjacent (PyStr.is_char "_") (_sanitize_name "Top Rising Terms!") = false.
Proof. apply (sanitize_name_shape "Top Rising Terms!"); reflexivity. Defined.

(** Sanitising is idempotent on ASCII names: a sanitised name is its own
    sanitised form, so a name that went through [_sanitize_name] once can
    be passed through it again wherever it is reused. *)
Theorem sanitize_name_idempotent (view_name : string) :
  PyStr.sforall PyStr.is_ascii view_name = true →
  _sanitize_name (_sanitize_name view_name) = _sanitize_name view_name.
Proof.
  intros _.
  destruct (sanitize_name_fixed_points view_name) as [Hstrip Hruns].
  assert (PyStr.sforall is_sanitized_char (_sanitize_name view_name) = true) as Hst.
  { unfold _sanitize_name. apply sforall_strip, sforall_runs; [done|].
    rewrite sanitize_body_sforall.
    apply (sforall_impl (λ _, true)); [intros c _; apply sanitize_char_stable|].
    clear. induction view_name as [|c s IH]; simpl; done. }
  set (r := _sanitize_name view_name) in *.
  unfold _sanitize_name at 1.
  unfold PyStr.re_delete_outside, PyStr.lower, PyStr.replace_char.
  rewrite sfilter_id.
  2: { revert Hst. apply sforall_impl. intros c Hc.
       by apply is_sanitized_char_fixed in Hc as (? & _ & _). }
  rewrite (smap_id_on _ is_sanitized_char r).
  2: { intros c Hc. by apply is_sanitized_char_fixed in Hc as (_ & ? & _). }
  2: done.
  rewrite (smap_id_on _ is_sanitized_char r).
  2: { intros c Hc. by apply is_sanitized_char_fixed in Hc as (_ & _ & ?). }
  2: done.
  by rewrite Hruns, Hstrip.
Qed.

Lemma sanitize_name_idempotent_witness :
  _sanitize_name (_sanitize_name "Top Rising Terms!")
  = _sanitize_name "Top Rising Terms!".
Proof. apply (sanitize_name_idempotent "Top Rising Terms!"). reflexivity. Defined.

(** The sanitised form of an ASCII name is empty exactly when the name
    holds no letter, no digit and no whitespace other than spaces: names
    made only of punctuation, spaces and underscores all collapse to the
    empty name. *)
Theorem sanitize_name_empty_iff (view_name : string) :
  PyStr.sforall PyStr.is_ascii view_name = true →
  (_sanitize_name view_name = EmptyString ↔
   PyStr.sforall (λ c, negb (is_alnum c) && negb (is_other_space c)) view_name = true).
Proof.
  intros _. unfold _sanitize_name.
  rewrite (strip_empty_iff (PyStr.is_char "_")).
  rewrite (sforall_class_runs (PyStr.is_char "_") "_"%char eq_refl).
  rewrite sanitize_body_sforall.
  by rewrite (sforall_ext _ _ _ sanitize_char_vanishes).
Qed.

Lemma sanitize_name_empty_iff_witness :
  _sanitize_name "-- (!) __" = EmptyString ↔
  PyStr.sforall (λ c, negb (is_alnum c) && negb (is_other_space c)) "-- (!) __" = true.
Proof. apply (sanitize_name_empty_iff "-- (!) __"). reflexivity. Defined.

(** ** A run of the analysis *)

Lemma elem_of_first_occurrences x l : x ∈ first_occurrences l ↔ x ∈ l.
Proof.
  induction l as [|y l IH] using rev_ind; [done|].
  rewrite first_occurrences_snoc, elem_of_app, list_elem_of_singleton.
  case_bool_decide as Hy.
  - rewrite IH. split; [tauto|]. intros [?| ->]; [done | by apply IH].
  - rewrite elem_of_app, list_elem_of_singleton, IH. done.
Qed.

Lemma first_occurrences_length l : length (first_occurrences l) ≤ length l.
Proof.
  induction l as [|y l IH] using rev_ind; [done|].
  rewrite first_occurrences_snoc, length_app. simpl.
  case_bool_decide; [lia|]. rewrite length_app. simpl. lia.
Qed.

Lemma first_occurrences_app_repeat l l2 :
  (∀ x, x ∈ l2 → x ∈ l) → first_occurrences (l ++ l2) = first_occurrences l.
Proof.
  induction l2 as [|y l2 IH] using rev_ind; intros Hsub.
  - by rewrite app_nil_r.
  - rewrite app_assoc, first_occurrences_snoc, IH.
    + rewrite bool_decide_eq_true_2; [done|].
      apply elem_of_first_occurrences, Hsub, elem_of_app. right.
      by apply list_elem_of_singleton.
    + intros x Hx. apply Hsub, elem_of_app. by left.
Qed.

(** A dictionary comprehension over a dictionary keeps its keys and
    their order. *)
Lemma dict_comprehension_keys {V W : Type} (f : string → V → W) (d : dict V) :
  NoDup (dict_keys d) → dict_keys (dict_comprehension f d) = dict_keys d.
Proof.
  unfold dict_comprehension.
  assert (∀ acc : dict W,
            NoDup (dict_keys acc ++ dict_keys d) →
            dict_keys (foldl (λ acc kv, dict_set kv.1 (f kv.1 kv.2) acc) acc d)
            = dict_keys acc ++ dict_keys d) as H.
  { induction d as [|[k v] d IH]; intros acc Hnd.
    - symmetry. apply app_nil_r.
    - change (dict_keys ((k, v) :: d)) with (k :: dict_keys d) in *.
      cbn [foldl]. simpl fst. simpl snd.
      assert (dict_mem k acc = false) as Hmem.
      { apply dict_mem_false. apply NoDup_app in Hnd as (_ & Hdisj & _).
        intros Hin. apply (Hdisj k Hin). apply list_elem_of_here. }
      rewrite IH.
      + rewrite dict_keys_set, Hmem. by rewrite <- app_assoc.
      + rewrite dict_keys_set, Hmem, <- app_assoc. exact Hnd. }
  intros Hnd. apply (H []). exact Hnd.
Qed.

Section RunFacts.
Variable md5_json : KeyElements → string.
Variable parse_twb : string → option (list DataSourceMock).
Variable path_name : string → string.

Local Abbreviation analyze := (analyze_all_workbooks md5_json parse_twb path_name).
Local Abbreviation after := (after_parsing md5_json path_name).

Lemma run_calls_app parsed1 parsed2 :
  run_calls path_name (parsed1 ++ parsed2)
  = run_calls path_name parsed1 ++ run_calls path_name parsed2.
Proof. unfold run_calls. by rewrite fmap_app, concat_app. Qed.

Lemma run_calls_cons ps parsed :
  run_calls path_name (ps :: parsed)
  = workbook_calls path_name ps ++ run_calls path_name parsed.
Proof. reflexivity. Qed.

Lemma run_calls_singleton ps :
  run_calls path_name [ps] = workbook_calls path_name ps.
Proof. rewrite run_calls_cons. apply app_nil_r. Qed.

Lemma after_parsing_nil self : after self [] = self.
Proof. unfold after_parsing. simpl. rewrite app_nil_r. by destruct self. Qed.

Lemma after_parsing_cons self ps parsed :
  after (after self [ps]) parsed = after self (ps :: parsed).
Proof.
  unfold after_parsing.
  cbn [workbook_paths parsers view_consolidator calc_consolidator
       unified_views duplicate_calcs].
  rewrite run_calls_singleton, (run_calls_cons ps parsed), foldl_app.
  rewrite (fmap_cons parser_of ps parsed), <- app_assoc. done.
Qed.

Lemma analyze_workbook_Some self twb_path ds :
  parse_twb twb_path = Some ds →
  analyze_workbook md5_json parse_twb path_name self twb_path
  = Some (after self [(twb_path, ds)]).
Proof.
  intros Hp. unfold analyze_workbook, after_parsing. rewrite Hp.
  rewrite run_calls_singleton. unfold workbook_calls.
  rewrite foldl_fmap. done.
Qed.

Lemma analyze_loop_parsed paths parsed self :
  parsed_from parse_twb paths parsed →
  analyze_loop md5_json parse_twb path_name paths self = Some (after self parsed).
Proof.
  intros [<- Hall]. revert self.
  induction Hall as [|[p ds] parsed Hp _ IH]; intros self.
  - simpl. by rewrite after_parsing_nil.
  - rewrite fmap_cons. cbn [analyze_loop]. simpl in Hp.
    rewrite (analyze_workbook_Some _ _ _ Hp). simpl.
    rewrite IH. by rewrite after_parsing_cons.
Qed.

Lemma analyze_loop_Some paths self after_loop :
  analyze_loop md5_json parse_twb path_name paths self = Some after_loop →
  ∃ parsed, parsed_from parse_twb paths parsed ∧ after_loop = after self parsed.
Proof.
  revert self. induction paths as [|p paths IH]; intros self.
  - intros [= <-]. exists []. split; [by split | by rewrite after_parsing_nil].
  - cbn [analyze_loop]. destruct (parse_twb p) as [ds|] eqn:Hp.
    + rewrite (analyze_workbook_Some _ _ _ Hp). simpl.
      intros (parsed & [Hpaths Hall] & ->)%IH.
      exists ((p, ds) :: parsed). split.
      * split; [by rewrite fmap_cons, Hpaths | by constructor].
      * by rewrite after_parsing_cons.
    + unfold analyze_workbook. by rewrite Hp.
Qed.

Lemma parsed_from_unique paths parsed1 parsed2 :
  parsed_from parse_twb paths parsed1 → parsed_from parse_twb paths parsed2 →
  parsed1 = parsed2.
Proof.
  intros [<- H1] [Hpaths H2]. revert parsed2 Hpaths H2.
  induction H1 as [|[p ds] parsed1 Hp _ IH]; intros [|[p' ds'] parsed2] Hpaths H2;
    try done.
  rewrite !fmap_cons in Hpaths. injection Hpaths as Hp' Hrest. simpl in *. subst p'.
  apply Forall_cons in H2 as [Hp2 H2]. simpl in Hp2.
  f_equal; [f_equal; congruence | by apply IH].
Qed.

Lemma total_data_sources_parsers parsed acc :
  foldl (λ acc p, acc + len (data_sources p))%Z acc (parser_of <$> parsed)
  = (acc + len (run_calls path_name parsed))%Z.
Proof.
  revert acc. induction parsed as [|ps parsed IH]; intros acc.
  - unfold len. simpl. lia.
  - rewrite fmap_cons. cbn [foldl]. rewrite IH, run_calls_cons.
    unfold workbook_calls, len.
    rewrite length_app, length_fmap. simpl. lia.
Qed.

Lemma consolidate_after_calls calls :
  ∃ uv, consolidate (register_all md5_json calls) = Some uv ∧
        dict_keys uv = first_occurrences (rc_name <$> calls) ∧
        NoDup (dict_keys uv).
Proof.
  destruct (consolidate_loop_spec
              (view_registry (register_all md5_json calls)) [])
    as (uv & Huv & _).
  { apply registry_NoDup. }
  { intros k obs. apply registry_nonempty. }
  exists uv. split; [done|].
  assert (dict_keys uv = dict_keys (view_registry (register_all md5_json calls))) as E
    by by apply consolidate_keys.
  rewrite E. split; [apply registry_keys | apply registry_NoDup].
Qed.

(** A call of the analysis that returns: every parse returned, and the
    state and report are those of the loop followed by [consolidate]. *)
Lemma analyze_Some self o r :
  analyze self = Some (o, r) →
  ∃ parsed uv,
    parsed_from parse_twb (workbook_paths self) parsed ∧
    consolidate (view_consolidator (after self parsed)) = Some uv ∧
    o = {| workbook_paths := workbook_paths self;
           parsers := parsers self ++ (parser_of <$> parsed);
           view_consolidator := view_consolidator (after self parsed);
           calc_consolidator := calc_consolidator self;
           unified_views := uv;
           duplicate_calcs := [] |} ∧
    r = _generate_consolidation_report o.
Proof.
  unfold analyze_all_workbooks.
  destruct (analyze_loop _ _ _ _ self) as [s|] eqn:Hloop; simpl; [|done].
  apply analyze_loop_Some in Hloop as (parsed & Hparsed & ->).
  destruct (consolidate _) as [uv|] eqn:Huv; simpl; [|done].
  intros [= <- <-]. exists parsed, uv. split_and!; done.
Qed.

Lemma analyze_fresh_Some paths o r :
  analyze (new_orchestrator paths) = Some (o, r) →
  ∃ parsed uv,
    parsed_from parse_twb paths parsed ∧
    consolidate (register_all md5_json (run_calls path_name parsed)) = Some uv ∧
    o = {| workbook_paths := paths;
           parsers := parser_of <$> parsed;
           view_consolidator := register_all md5_json (run_calls path_name parsed);
           calc_consolidator := new_calc_consolidator;
           unified_views := uv;
           duplicate_calcs := [] |} ∧
    r = _generate_consolidation_report o.
Proof.
  intros (parsed & uv & Hparsed & Huv & -> & ->)%analyze_Some.
  exists parsed, uv. split_and!; done.
Qed.

(** An analysis on a fresh orchestrator that returns has parsed every
    path without an exception.  It then holds one parser per path, has
    registered every parsed data source under its name, workbook by
    workbook and data source by data source, with the workbook's file name
    as source, keeps the consolidator's result as unified views, and has
    not touched the calculated-field consolidator, so the duplicate
    mapping is empty; the report is the one generated from that state. *)
Theorem analysis_registers_every_data_source (paths : list string)
    (o : EnterpriseMigrationOrchestrator) (r : ConsolidationReport) :
  analyze (new_orchestrator paths) = Some (o, r) →
  ∃ parsed uv,
    parsed_from parse_twb paths parsed ∧
    consolidate (register_all md5_json (run_calls path_name parsed)) = Some uv ∧
    o = {| workbook_paths := paths;
           parsers := parser_of <$> parsed;
           view_consolidator := register_all md5_json (run_calls path_name parsed);
           calc_consolidator := new_calc_consolidator;
           unified_views := uv;
           duplicate_calcs := [] |} ∧
    r = _generate_consolidation_report o.
Proof. apply analyze_fresh_Some. Qed.

(** The summary of an analysis on a fresh orchestrator that returns:
    the number of paths, the number of parsed data sources, the number of
    distinct data-source names, their difference, which is never negative,
    a review count between zero and the number of views, and no duplicate
    calculated fields; the per-view section lists the views in
    first-registration order. *)
Theorem run_report_summary (paths : list string)
    (o : EnterpriseMigrationOrchestrator) (r : ConsolidationReport) :
  analyze (new_orchestrator paths) = Some (o, r) →
  ∃ parsed,
    parsed_from parse_twb paths parsed ∧
    workbooks_analyzed (summary r) = len paths ∧
    views_before_consolidation (summary r) = len (run_calls path_name parsed) ∧
    views_after_consolidation (summary r)
      = len (first_occurrences (rc_name <$> run_calls path_name parsed)) ∧
    views_eliminated (summary r)
      = (views_before_consolidation (summary r)
         - views_after_consolidation (summary r))%Z ∧
    (0 ≤ views_eliminated (summary r))%Z ∧
    (0 ≤ views_requiring_manual_review (summary r)
       ≤ views_after_consolidation (summary r))%Z ∧
    views_requiring_manual_review (summary r) = len (views_requiring_review r) ∧
    duplicate_calculated_fields (summary r) = 0%Z ∧
    report_duplicate_calculated_fields r = [] ∧
    dict_keys (report_unified_views r)
      = first_occurrences (rc_name <$> run_calls path_name parsed).
Proof.
  intros (parsed & uv & Hparsed & Huv & -> & ->)%analyze_fresh_Some.
  destruct (consolidate_after_calls (run_calls path_name parsed))
    as (uv' & Huv' & Hkeys & Hnd).
  assert (uv' = uv) as -> by congruence.
  exists parsed. split; [done|].
  unfold _generate_consolidation_report.
  cbn [summary workbooks_analyzed views_before_consolidation
       views_after_consolidation views_eliminated views_requiring_manual_review
       duplicate_calculated_fields report_duplicate_calculated_fields
       report_unified_views views_requiring_review
       workbook_paths parsers unified_views duplicate_calcs].
  assert (total_data_sources (parser_of <$> parsed) = len (run_calls path_name parsed))
    as Hbefore.
  { unfold total_data_sources. rewrite total_data_sources_parsers. lia. }
  assert (len uv = len (first_occurrences (rc_name <$> run_calls path_name parsed)))
    as Hafter.
  { unfold len. f_equal. rewrite <- Hkeys. unfold dict_keys. by rewrite length_fmap. }
  rewrite Hbefore, Hafter.
  split_and!; try done.
  - pose proof (first_occurrences_length (rc_name <$> run_calls path_name parsed)) as Hle.
    rewrite length_fmap in Hle. unfold len. lia.
  - unfold len. lia.
  - rewrite <- Hafter. unfold len.
    pose proof (length_filter (λ v, merge_strategy v = "manual_review") (dict_values uv)).
    unfold dict_values in *. rewrite length_fmap in *. lia.
  - unfold len. by rewrite length_fmap.
  - rewrite dict_comprehension_keys; done.
Qed.

(** The analysis accumulates: when a second call on the same
    orchestrator, with the workbook files unchanged since the first,
    returns as the first did, it has parsed and registered
    every data source again on top of the first pass, so the registry
    holds every observation twice, the parsers are listed twice, the count
    of views before consolidation has doubled, and the count of views
    after consolidation is the same. *)
Theorem second_analysis_registers_everything_again (paths : list string)
    (o1 o2 : EnterpriseMigrationOrchestrator) (r1 r2 : ConsolidationReport) :
  analyze (new_orchestrator paths) = Some (o1, r1) →
  analyze o1 = Some (o2, r2) →
  ∃ parsed,
    parsed_from parse_twb paths parsed ∧
    view_consolidator o2
      = register_all md5_json (run_calls path_name parsed ++ run_calls path_name parsed) ∧
    parsers o2 = parsers o1 ++ parsers o1 ∧
    views_before_consolidation (summary r2)
      = (2 * views_before_consolidation (summary r1))%Z ∧
    views_after_consolidation (summary r2) = views_after_consolidation (summary r1) ∧
    workbooks_analyzed (summary r2) = workbooks_analyzed (summary r1).
Proof.
  intros (parsed & uv & Hparsed & Huv & -> & ->)%analyze_fresh_Some.
  intros (parsed2 & uv2 & Hparsed2 & Huv2 & -> & ->)%analyze_Some.
  cbn [workbook_paths] in Hparsed2.
  assert (parsed2 = parsed) as -> by by eapply parsed_from_unique.
  assert (view_consolidator
            (after {| workbook_paths := paths;
                      parsers := parser_of <$> parsed;
                      view_consolidator :=
                        register_all md5_json (run_calls path_name parsed);
                      calc_consolidator := new_calc_consolidator;
                      unified_views := uv;
                      duplicate_calcs := [] |} parsed)
          = register_all md5_json
              (run_calls path_name parsed ++ run_calls path_name parsed)) as Hvc.
  { unfold after_parsing, register_all. cbn [view_consolidator].
    by rewrite foldl_app. }
  rewrite Hvc in Huv2 |- *.
  destruct (consolidate_after_calls (run_calls path_name parsed))
    as (uv' & Huv' & Hkeys & _).
  assert (uv' = uv) as -> by congruence.
  destruct (consolidate_after_calls
              (run_calls path_name parsed ++ run_calls path_name parsed))
    as (uv2' & Huv2' & Hkeys2 & _).
  assert (uv2' = uv2) as -> by congruence.
  exists parsed. split; [done|].
  unfold _generate_consolidation_report.
  cbn [summary workbooks_analyzed views_before_consolidation
       views_after_consolidation parsers view_consolidator
       workbook_paths unified_views].
  split_and!; try done.
  - unfold total_data_sources. rewrite foldl_app.
    rewrite !total_data_sources_parsers. lia.
  - unfold len. f_equal.
    rewrite <- (length_fmap fst uv2), <- (length_fmap fst uv).
    fold (dict_keys uv2). fold (dict_keys uv). rewrite Hkeys, Hkeys2.
    rewrite fmap_app, first_occurrences_app_repeat; done.
Qed.
End RunFacts.

Lemma analysis_registers_every_data_source_witness :
  ∃ o r parsed uv,
    analyze_all_workbooks toy_digest scenario_parse scenario_path_name
      (new_orchestrator ["a.twb"; "b.twb"]) = Some (o, r) ∧
    parsed_from scenario_parse ["a.twb"; "b.twb"] parsed ∧
    consolidate (register_all toy_digest (run_calls scenario_path_name parsed))
      = Some uv ∧
    o = {| workbook_paths := ["a.twb"; "b.twb"];
           parsers := parser_of <$> parsed;
           view_consolidator :=
             register_all toy_digest (run_calls scenario_path_name parsed);
           calc_consolidator := new_calc_consolidator;
           unified_views := uv;
           duplicate_calcs := [] |} ∧
    r = _generate_consolidation_report o.
Proof.
  eexists _, _.
  destruct (analysis_registers_every_data_source toy_digest scenario_parse
              scenario_path_name ["a.twb"; "b.twb"] _ _ eq_refl)
    as (parsed & uv & H).
  exists parsed, uv. split; [reflexivity | exact H].
Defined.

Lemma run_report_summary_witness :
  ∃ o r,
    analyze_all_workbooks toy_digest scenario_parse scenario_path_name
      (new_orchestrator ["a.twb"; "b.twb"]) = Some (o, r) ∧
    workbooks_analyzed (summary r) = 2%Z ∧
    views_before_consolidation (summary r) = 1%Z ∧
    (0 ≤ views_eliminated (summary r))%Z.
Proof.
  eexists _, _. split; [reflexivity|].
  destruct (run_report_summary toy_digest scenario_parse scenario_path_name
              ["a.twb"; "b.twb"] _ _ eq_refl)
    as (parsed & _ & Hw & _ & _ & _ & He & _).
  split; [exact Hw|]. split; [reflexivity | exact He].
Defined.

Example scenario_second_run_state :
  analyze_all_workbooks toy_digest scenario_parse scenario_path_name state_after_run
  = Some (state_after_second_run,
          _generate_consolidation_report state_after_second_run).
Proof. vm_compute. reflexivity. Qed.

Lemma second_analysis_registers_everything_again_witness :
  analyze_all_workbooks toy_digest scenario_parse scenario_path_name
    (new_orchestrator ["a.twb"])
  = Some (state_after_run, _generate_consolidation_report state_after_run) ∧
  analyze_all_workbooks toy_digest scenario_parse scenario_path_name state_after_run
  = Some (state_after_second_run,
          _generate_consolidation_report state_after_second_run) ∧
  parsers state_after_second_run
  = parsers state_after_run ++ parsers state_after_run ∧
  views_before_consolidation
    (summary (_generate_consolidation_report state_after_second_run))
  = (2 * views_before_consolidation
           (summary (_generate_consolidation_report state_after_run)))%Z ∧
  views_after_consolidation
    (summary (_generate_consolidation_report state_after_second_run))
  = views_after_consolidation
      (summary (_generate_consolidation_report state_after_run)).
Proof.
  destruct (second_analysis_registers_everything_again toy_digest scenario_parse
              scenario_path_name ["a.twb"]
              state_after_run state_after_second_run
              (_generate_consolidation_report state_after_run)
              (_generate_consolidation_report state_after_second_run)
              scenario_run_state scenario_second_run_state)
    as (parsed & _ & _ & Hp & Hb & Ha & _).
  split; [exact scenario_run_state|]. split; [exact scenario_second_run_state|].
  split_and!; [exact Hp | exact Hb | exact Ha].
Defined.

Example analysis_raises_on_missing_file :
  analyze_all_workbooks toy_digest scenario_parse scenario_path_name
    (new_orchestrator ["a.twb"; "missing.twb"; "b.twb"]) = None.
Proof. reflexivity. Qed.

(** ** The emitted files *)


(** A run of assignments [d[k] = v] from a list of pairs. *)
Section Assignments.
Context {V : Type}.
Implicit Types (kvs : list (string * V)) (acc : dict V).


Lemma assignments_lookup_other kvs acc k :
  k ∉ kvs.*1 →
  dict_get k (foldl (λ acc kv, dict_set kv.1 kv.2 acc) acc kvs) = dict_get k acc.
Proof.
  revert acc. induction kvs as [|[k' v] kvs IH]; intros acc Hk; [done|].
  rewrite fmap_cons in Hk. apply not_elem_of_cons in Hk as [Hne Hk].
  cbn [foldl]. rewrite IH by done. simpl. by rewrite dict_get_set_ne.
Qed.

Lemma assignments_lookup_last kvs1 kvs2 acc k v :
  k ∉ kvs2.*1 →
  dict_get k (foldl (λ acc kv, dict_set kv.1 kv.2 acc) acc (kvs1 ++ (k, v) :: kvs2))
  = Some v.
Proof.
  intros Hk. rewrite foldl_app. cbn [foldl].
  rewrite assignments_lookup_other by done. simpl. apply dict_get_set_eq.
Qed.
End Assignments.


Lemma string_app_cons c a b : String c a +:+ b = String c (a +:+ b).
Proof. reflexivity. Qed.

Lemma string_app_nil_r a : a +:+ "" = a.
Proof. induction a as [|c a IH]; [done|]. by rewrite string_app_cons, IH. Qed.




Lemma view_artifact_path_head n : first_char (view_artifact_path n) = Some "v"%char.
Proof. reflexivity. Qed.

Section EmitterFacts.
Variable path_str : string → string.
Variable path_name : string → string.

Local Abbreviation dashboard_lkml := (_generate_dashboard_lkml path_str path_name).

Lemma emit_dashboards_assignments ps acc :
  emit_dashboards path_str path_name ps acc
  = foldl (λ acc kv, dict_set kv.1 kv.2 acc) acc
          ((λ p, (the_dashboard_path, dashboard_lkml (the_dashboard p) p)) <$> ps).
Proof.
  unfold emit_dashboards. revert acc.
  induction ps as [|p ps IH]; intros acc; [done|].
  rewrite fmap_cons. cbn [foldl]. rewrite IH. done.
Qed.

Lemma emit_views_spec items acc files :
  emit_views items acc = Some files →
  ∃ contents,
    Forall2 (λ item c, _generate_unified_view_lkml item.2 = Some c) items contents ∧
    files = foldl (λ acc kv, dict_set kv.1 kv.2 acc) acc
                  (zip (view_artifact_path <$> items.*1) contents).
Proof.
  revert acc. induction items as [|[n v] items IH]; intros acc; simpl.
  - intros [= <-]. exists []. split; [constructor | done].
  - destruct (_generate_unified_view_lkml v) as [c|] eqn:Hc; simpl; [|done].
    intros (contents & HF & ->)%IH.
    exists (c :: contents). split; [by constructor | done].
Qed.

Lemma emit_views_is_Some items acc :
  is_Some (emit_views items acc) ↔
  Forall (λ item, is_Some (canonical_definition item.2)) items.
Proof.
  revert acc. induction items as [|[n v] items IH]; intros acc; simpl.
  - split; [constructor | by eexists].
  - rewrite Forall_cons. simpl.
    unfold _generate_unified_view_lkml at 1.
    destruct (canonical_definition v) as [d|]; simpl.
    + rewrite IH. split; [by split; [eexists|] | by intros [_ ?]].
    + split; [by intros [? [=]] | by intros [[? [=]] _]].
Qed.
End EmitterFacts.

Section EmittedFiles.
Variable path_str : string → string.
Variable path_name : string → string.

Local Abbreviation dashboard_lkml := (_generate_dashboard_lkml path_str path_name).
Local Abbreviation emit := (generate_unified_lookml path_str path_name).

(** The shape of a successful emission. *)
Lemma generate_unified_lookml_spec self files :
  emit self = Some files →
  ∃ contents,
    Forall2 (λ item c, _generate_unified_view_lkml item.2 = Some c)
            (unified_views self) contents ∧
    files =
      dict_set governance_path (_generate_governance_review self)
        (foldl (λ acc kv, dict_set kv.1 kv.2 acc)
           (foldl (λ acc kv, dict_set kv.1 kv.2 acc)
              (dict_set model_path _generate_unified_model [])
              (zip (view_artifact_path <$> (unified_views self).*1) contents))
           ((λ p, (the_dashboard_path, dashboard_lkml (the_dashboard p) p))
              <$> parsers self)).
Proof.
  unfold generate_unified_lookml.
  destruct (emit_views _ _) as [files1|] eqn:Hviews; simpl; [|done].
  intros [= <-]. apply emit_views_spec in Hviews as (contents & HF & ->).
  exists contents. split; [done|]. by rewrite emit_dashboards_assignments.
Qed.

Lemma zip_paths_fst (items : list (string * UnifiedView)) (contents : list string) :
  Forall2 (λ item c, _generate_unified_view_lkml item.2 = Some c) items contents →
  (zip (view_artifact_path <$> items.*1) contents).*1 = view_artifact_path <$> items.*1.
Proof.
  intros HF. apply fst_zip. apply Forall2_length in HF.
  rewrite !length_fmap. lia.
Qed.




(** Every parser carries one dashboard of the same name, so all of them
    are written to one path: the emitted mapping holds a single dashboard
    file, the one of the last parser, and none when no workbook was
    parsed. *)
Theorem dashboard_file_is_the_last_parsers
    (self : EnterpriseMigrationOrchestrator) (files : dict string) :
  emit self = Some files →
  dict_get the_dashboard_path files
  = (λ p, dashboard_lkml (the_dashboard p) p) <$> last (parsers self).
Proof.
  intros (contents & HF & ->)%generate_unified_lookml_spec.
  rewrite dict_get_set_ne by done.
  destruct (parsers self) as [|p ps _] using rev_ind.
  - rewrite fmap_nil. cbn [foldl]. rewrite assignments_lookup_other.
    + by rewrite dict_get_set_ne.
    + rewrite (zip_paths_fst _ _ HF).
      intros (n & E & _)%list_elem_of_fmap.
      pose proof (view_artifact_path_head n) as Hhead.
      rewrite <- E in Hhead. discriminate Hhead.
  - rewrite last_snoc, fmap_app.
    change ((λ p0, (the_dashboard_path, dashboard_lkml (the_dashboard p0) p0)) <$> [p])
      with [(the_dashboard_path, dashboard_lkml (the_dashboard p) p)].
    rewrite assignments_lookup_last; [done | apply not_elem_of_nil].
Qed.

(** A unified view without a canonical definition makes the emitter
    raise, wherever the view stands in the mapping: the view generator
    reads a key of the definition before anything is returned. *)
Theorem generate_unified_lookml_needs_canonical_definitions
    (self : EnterpriseMigrationOrchestrator)
    (view_name : string) (unified_view : UnifiedView) :
  (view_name, unified_view) ∈ unified_views self →
  canonical_definition unified_view = None →
  emit self = None.
Proof.
  intros Hin Hnone. unfold generate_unified_lookml.
  destruct (emit_views _ _) as [files|] eqn:Hviews; [|done].
  exfalso.
  assert (is_Some (emit_views (unified_views self)
                     (dict_set model_path _generate_unified_model []))) as Hsome
    by by eexists.
  apply emit_views_is_Some in Hsome. rewrite Forall_forall in Hsome.
  apply Hsome in Hin as [d Hd]. simpl in Hd. congruence.
Qed.
End EmittedFiles.

Lemma generate_unified_lookml_needs_canonical_definitions_witness :
  ("Orphan", orphan_view) ∈ unified_views state_with_orphan_view ∧
  generate_unified_lookml id id state_with_orphan_view = None.
Proof.
  assert (("Orphan", orphan_view) ∈ unified_views state_with_orphan_view) as Hin.
  { apply elem_of_cons. right. apply elem_of_cons. by left. }
  split; [exact Hin|].
  exact (generate_unified_lookml_needs_canonical_definitions id id
           state_with_orphan_view "Orphan" orphan_view Hin eq_refl).
Defined.



Lemma dashboard_file_is_the_last_parsers_witness :
  ∃ files,
    generate_unified_lookml id id colliding_state = Some files ∧
    dict_get the_dashboard_path files
    = (λ p, _generate_dashboard_lkml id id (the_dashboard p) p)
        <$> last (parsers colliding_state).
Proof.
  eexists. split; [reflexivity|].
  apply (dashboard_file_is_the_last_parsers id id colliding_state). reflexivity.
Defined.

(** With no view under review and no duplicate field, the governance
    document is its two headings and nothing else. *)
Theorem governance_review_without_findings (self : EnterpriseMigrationOrchestrator) :
  Forall (λ view, merge_strategy view ≠ "manual_review")
         (dict_values (unified_views self)) →
  duplicate_calcs self = [] →
  _generate_governance_review self
  = text_of_lines
      [ "# Governance Review Required"; ""; "## Views Requiring Manual Review"; "" ]
    +:+ nl +:+ "## Duplicate Calculated Fields" +:+ nl +:+ nl.
Proof.
  intros Hviews Hdup. unfold _generate_governance_review. rewrite Hdup. cbn [foldl].
  f_equal.
  generalize (text_of_lines
                [ "# Governance Review Required"; "";
                  "## Views Requiring Manual Review"; "" ]) as md.
  induction Hviews as [|view views Hview _ IH]; intros md; [done|].
  cbn [foldl]. rewrite IH. f_equal. unfold review_section.
  destruct (String.eqb_spec (merge_strategy view) "manual_review"); [done|].
  apply string_app_nil_r.
Qed.

Lemma governance_review_without_findings_witness :
  _generate_governance_review colliding_state
  = text_of_lines
      [ "# Governance Review Required"; ""; "## Views Requiring Manual Review"; "" ]
    +:+ nl +:+ "## Duplicate Calculated Fields" +:+ nl +:+ nl.
Proof.
  apply (governance_review_without_findings colliding_state).
  - repeat constructor; discriminate.
  - reflexivity.
Defined.

(** ** From analysis to emission *)




Section AnalysisThenEmission.
Variable md5_json : KeyElements → string.
Variable parse_twb : string → option (list DataSourceMock).
Variable path_str : string → string.
Variable path_name : string → string.

End AnalysisThenEmission.


(** ** Nothing is lost between registration and consolidation *)

Lemma dict_set_fresh {V : Type} k (v : V) (d : dict V) :
  k ∉ dict_keys d → dict_set k v d = d ++ [(k, v)].
Proof.
  unfold dict_keys. induction d as [|[k' v'] d IH]; [done|].
  rewrite fmap_cons, not_elem_of_cons. intros [Hne Hk]. simpl.
  destruct (String.eqb_spec k k'); [done|]. by rewrite IH.
Qed.

Lemma dict_set_total {A : Type} k (v : list A) (d : dict (list A)) :
  sum_list (length <$> (dict_set k v d).*2) + length (default [] (dict_get k d))
  = sum_list (length <$> d.*2) + length v.
Proof.
  induction d as [|[k' v'] d IH]; [simpl; lia|].
  cbn [dict_set dict_get]. destruct (String.eqb_spec k k').
  - rewrite !fmap_cons. simpl. lia.
  - rewrite !fmap_cons. cbn [sum_list sum_list_with snd id]. lia.
Qed.

Lemma register_view_total md5_json self m d s :
  sum_list (length <$> (view_registry (register_view md5_json self m d s)).*2)
  = S (sum_list (length <$> (view_registry self).*2)).
Proof.
  unfold register_view; simpl. set (reg := view_registry self).
  set (e := {| definition := d; source := s; hash := _hash_definition md5_json d |}).
  unfold dict_get_default, dict_mem.
  destruct (dict_get m reg) as [old|] eqn:E; simpl.
  - rewrite E.
    pose proof (dict_set_total m (old ++ [e]) reg) as Hset.
    rewrite E, length_app in Hset. simpl in Hset. lia.
  - rewrite dict_get_set_eq.
    pose proof (dict_set_total m ([] ++ [e]) (dict_set m [] reg)) as Hset.
    rewrite dict_get_set_eq in Hset.
    pose proof (dict_set_total m [] reg) as Hnew. rewrite E in Hnew.
    change ([] ++ [e]) with [e] in *. simpl in Hset, Hnew. lia.
Qed.

Lemma registry_total md5_json calls :
  sum_list (length <$> (view_registry (register_all md5_json calls)).*2)
  = length calls.
Proof.
  induction calls as [|c calls IH] using rev_ind; [done|].
  rewrite register_all_snoc. unfold register_call.
  rewrite register_view_total, IH, length_app. simpl. lia.
Qed.

Lemma consolidate_loop_list items acc uv :
  NoDup (dict_keys acc ++ dict_keys items) →
  consolidate_loop items acc = Some uv →
  ∃ vs, uv = acc ++ vs ∧
        Forall2 (λ item kv, consolidate_item item.1 item.2 = Some kv.2) items vs.
Proof.
  revert acc. induction items as [|[n obs] items IH]; intros acc Hnd.
  - intros [= <-]. exists []. split; [by rewrite app_nil_r | constructor].
  - change (dict_keys ((n, obs) :: items)) with (n :: dict_keys items) in *.
    simpl. destruct (consolidate_item n obs) as [u|] eqn:Hu; simpl; [|done].
    assert (n ∉ dict_keys acc) as Hfresh.
    { apply NoDup_app in Hnd as (_ & Hdisj & _).
      intros Hin. apply (Hdisj n Hin). apply list_elem_of_here. }
    rewrite dict_set_fresh by done.
    intros (vs & -> & HF)%IH.
    + exists ((n, u) :: vs). split; [by rewrite <- app_assoc|].
      by constructor.
    + unfold dict_keys in *. rewrite fmap_app, <- app_assoc. exact Hnd.
Qed.

Lemma consolidate_item_sources_length view_name (obs : list RegistryEntry) v :
  consolidate_item view_name obs = Some v →
  length (source_workbooks v) = length obs.
Proof.
  intros Hv. assert (obs ≠ []) as Hne.
  { intros ->. by rewrite (proj2 (consolidate_item_None view_name [])) in Hv. }
  destruct (consolidate_item_cases view_name obs Hne)
    as [(o & -> & E)|[(_ & _ & first & _ & E)|(_ & _ & i & best & x & xs & _ & _ & E)]];
    rewrite E in Hv; injection Hv as <-; simpl; by rewrite ?length_fmap.
Qed.

(** Consolidation neither drops nor repeats a registration: over all
    unified views, the source lists hold exactly one entry per
    [register_view] call. *)
Theorem every_registration_is_in_one_source_list
    (md5_json : KeyElements → string) (calls : list RegisterCall) :
  ∃ uv,
    consolidate (register_all md5_json calls) = Some uv ∧
    sum_list ((λ view, length (source_workbooks view)) <$> dict_values uv)
    = length calls.
Proof.
  destruct (consolidate_loop_spec
              (view_registry (register_all md5_json calls)) [])
    as (uv & Huv & _).
  { apply registry_NoDup. }
  { intros k obs. apply registry_nonempty. }
  exists uv. split; [done|].
  apply consolidate_loop_list in Huv as (vs & -> & HF); [|apply registry_NoDup].
  rewrite <- (registry_total md5_json calls).
  rewrite app_nil_l. unfold dict_values.
  induction HF as [|[n obs] [n' v] items vs Hv _ IH]; [done|].
  rewrite !fmap_cons. simpl in *.
  by rewrite (consolidate_item_sources_length _ _ _ Hv), IH.
Qed.
